(** * Telemetry tracking of the deployment CLI

    A shallow embedding of the telemetry layer of the command-line client:
    the per-command telemetry client [ListTelemetryClient], the test double
    [MockClient] and the command handlers [pull], [init], [target] and
    [dns rm], together with the properties their specification states.

    Tracking methods and handlers run in a state-and-exception monad over
    the event store: a call either completes normally or throws, and the
    events recorded before a throw stay recorded, as in JavaScript.

    The state is the event store alone: what a handler prints to the output
    sink is left out. Functions the handlers import from modules that are
    not among the sources are parameters of the handler's section; the ones
    a handler awaits are computations of the monad, which may reject (throw)
    and, being handed the client, may record. *)

From Stdlib Require Import String List ZArith Bool Lia SpecFloat.
Import ListNotations.
Open Scope string_scope.
Open Scope list_scope.

(** ** JavaScript values and truthiness *)

(** A JavaScript [number] is an IEEE 754 double: zero and infinity of either
    sign, NaN, or a finite non-zero value. *)
Definition number : Type := spec_float.

(** [ToBoolean], the conversion behind [if (v)], [v && w] and [Boolean(v)]. *)
Class Truthy (A : Type) : Type := truthy : A -> bool.

#[global] Instance Truthy_boolean : Truthy bool := fun b => b.

#[global] Instance Truthy_string : Truthy string :=
  fun s => match s with EmptyString => false | String _ _ => true end.

#[global] Instance Truthy_number : Truthy number :=
  fun n => match n with
           | S754_zero _ | S754_nan => false
           | S754_infinity _ | S754_finite _ _ _ => true
           end.

(** Every array is an object, hence truthy, the empty one included. *)
#[global] Instance Truthy_array {A : Type} : Truthy (list A) := fun _ => true.

(** An optional parameter [v?: T] holds [undefined] or a [T]. *)
#[global] Instance Truthy_optional {A : Type} `{Truthy A} : Truthy (option A) :=
  fun v => match v with None => false | Some a => truthy a end.

(** ** Completions and the telemetry monad *)

Inductive JsError : Type :=
| TypeError (message : string)
| Error (message : string).

Inductive Completion (A : Type) : Type :=
| Normal (result : A)
| Throw (error : JsError).

Arguments Normal {A} result.
Arguments Throw {A} error.

(** ** Event store *)

Inductive EventKind : Type := option_kind | flag_kind | argument_kind | subcommand_kind.

(** Modelled from the spec: the type [Event] of the telemetry module is not
    among the sources. An event has a [kind], a [key] and a [value]; the
    spec gives a flag event a name and leaves its value unstated, so here
    [value] is optional and [None] stands for that unstated value: no
    property below says what the value of a flag event is. *)
Record TelemetryEvent : Type := mkEvent {
  kind : EventKind;
  key : string;
  value : option string
}.

(** Modelled from the spec: the class [TelemetryEventStore] of the telemetry
    module is not among the sources. The store owns the list of the events
    recorded so far, oldest first. *)
Record TelemetryEventStore : Type := mkStore {
  events : list TelemetryEvent
}.

Definition Telemetry (A : Type) : Type :=
  TelemetryEventStore -> Completion A * TelemetryEventStore.

Definition ret {A : Type} (a : A) : Telemetry A := fun st => (Normal a, st).

Definition bind {A B : Type} (c : Telemetry A) (k : A -> Telemetry B) : Telemetry B :=
  fun st =>
    match c st with
    | (Normal a, st') => k a st'
    | (Throw e, st') => (Throw e, st')
    end.

Definition throw {A : Type} (e : JsError) : Telemetry A := fun st => (Throw e, st).

(** [try { body } catch (error) { handler(error) }] *)
Definition try_catch {A : Type} (body : Telemetry A) (handler : JsError -> Telemetry A)
  : Telemetry A :=
  fun st =>
    match body st with
    | (Normal a, st') => (Normal a, st')
    | (Throw e, st') => handler e st'
    end.

Declare Scope telemetry_scope.
Delimit Scope telemetry_scope with telemetry.
Notation "x <- c ;; k" := (bind c (fun x => k))
  (at level 61, c at next level, right associativity) : telemetry_scope.
Notation "c ;; k" := (bind c (fun _ => k))
  (at level 61, right associativity) : telemetry_scope.
Open Scope telemetry_scope.

(** [a && b]: the right operand is evaluated only when the left is truthy. *)
Definition and_then (a : bool) (b : Telemetry bool) : Telemetry bool :=
  if a then b else ret false.

(** [a.length]: reading a property of [undefined] throws a [TypeError]. *)
Definition length_of {A : Type} (a : option (list A)) : Telemetry nat :=
  match a with
  | Some l => ret (List.length l)
  | None => throw (TypeError "Cannot read properties of undefined (reading 'length')")
  end.

Module TelemetryEventStore.

(** Modelled from the spec: [record(event)] appends one event; no
    deduplication, no ordering changes. *)
Definition record (event : TelemetryEvent) (store : TelemetryEventStore)
  : TelemetryEventStore :=
  mkStore (events store ++ [event]).

(** Modelled from the spec: [reset()] clears all recorded events. *)
Definition reset (store : TelemetryEventStore) : TelemetryEventStore :=
  mkStore [].

(** [MockTelemetryEventStore.save]: the test double hands the events to
    nobody. *)
Definition save (store : TelemetryEventStore) : TelemetryEventStore := store.

End TelemetryEventStore.

(** ** Base telemetry client *)

Module TelemetryClient.

(** Modelled from the spec: the field [redactedValue] of the base class
    [TelemetryClient] is not among the sources; it is the one fixed
    redaction placeholder, the literal marker the spec names. *)
Definition redactedValue : string := "[REDACTED]".

(** Modelled from the spec: the four primitives of the base class are not
    among the sources. Each builds one event of its kind from its
    arguments and delegates to the store's [record]; none throws. *)
Definition track (event : TelemetryEvent) : Telemetry unit :=
  fun st => (Normal tt, TelemetryEventStore.record event st).

Definition trackCliOption (option value : string) : Telemetry unit :=
  track (mkEvent option_kind option (Some value)).

Definition trackCliFlag (flag : string) : Telemetry unit :=
  track (mkEvent flag_kind flag None).

Definition trackCliArgument (arg value : string) : Telemetry unit :=
  track (mkEvent argument_kind arg (Some value)).

Definition trackCliSubcommand (subcommand value : string) : Telemetry unit :=
  track (mkEvent subcommand_kind subcommand (Some value)).

End TelemetryClient.

(** ** The telemetry client of the [list] command *)

Module ListTelemetryClient.
Import TelemetryClient.

Definition trackCliOptionMeta (meta : option (list string)) : Telemetry unit :=
  cond <- and_then (truthy meta) (len <- length_of meta ;; ret (0 <? len)%nat) ;;
  if cond then trackCliOption "meta" redactedValue else ret tt.

Definition trackCliOptionPolicy (policy : option (list string)) : Telemetry unit :=
  cond <- and_then (truthy policy) (len <- length_of policy ;; ret (0 <? len)%nat) ;;
  if cond then trackCliOption "policy" redactedValue else ret tt.

(** Inside [if (environment)] the parameter is narrowed to a string. *)
Definition trackCliOptionEnvironment (environment : option string) : Telemetry unit :=
  match environment with
  | Some environment =>
      if truthy environment then
        let environment :=
          if negb (environment =? "production") && negb (environment =? "preview")
          then redactedValue
          else environment in
        trackCliOption "environment" environment
      else ret tt
  | None => ret tt
  end.

Definition trackCliOptionNext (next : option number) : Telemetry unit :=
  if truthy next then trackCliOption "next" redactedValue else ret tt.

Definition trackCliFlagProd (flag : option bool) : Telemetry unit :=
  if truthy flag then trackCliFlag "prod" else ret tt.

Definition trackCliFlagYes (flag : option bool) : Telemetry unit :=
  if truthy flag then trackCliFlag "yes" else ret tt.

Definition trackCliFlagConfirm (flag : option bool) : Telemetry unit :=
  if truthy flag then trackCliFlag "confirm" else ret tt.

Definition trackCliArgumentApp (app : option string) : Telemetry unit :=
  if truthy app then trackCliArgument "app" redactedValue else ret tt.

(** A call of one of the eight tracking methods with its argument. *)
Inductive Call : Type :=
| OptionMeta (meta : option (list string))
| OptionPolicy (policy : option (list string))
| OptionEnvironment (environment : option string)
| OptionNext (next : option number)
| FlagProd (flag : option bool)
| FlagYes (flag : option bool)
| FlagConfirm (flag : option bool)
| ArgumentApp (app : option string).

Definition call (c : Call) : Telemetry unit :=
  match c with
  | OptionMeta meta => trackCliOptionMeta meta
  | OptionPolicy policy => trackCliOptionPolicy policy
  | OptionEnvironment environment => trackCliOptionEnvironment environment
  | OptionNext next => trackCliOptionNext next
  | FlagProd flag => trackCliFlagProd flag
  | FlagYes flag => trackCliFlagYes flag
  | FlagConfirm flag => trackCliFlagConfirm flag
  | ArgumentApp app => trackCliArgumentApp app
  end.

End ListTelemetryClient.

(** ** The mock client of the unit tests *)

Module MockClient.

(** The part of a [MockStream] the test double sets up. *)
Record MockStream : Type := mkStream {
  isTTY : bool;
  fullOutput : string;
  chunks : list string;
  rawChunks : list string;
  encoding : option string;
  paused : bool
}.

Definition new_MockStream : MockStream :=
  mkStream true "" [] [] None false.

Definition setEncoding (enc : string) (s : MockStream) : MockStream :=
  mkStream (isTTY s) (fullOutput s) (chunks s) (rawChunks s) (Some enc) (paused s).

Definition pause (s : MockStream) : MockStream :=
  mkStream (isTTY s) (fullOutput s) (chunks s) (rawChunks s) (encoding s) true.

Definition set_isTTY (b : bool) (s : MockStream) : MockStream :=
  mkStream b (fullOutput s) (chunks s) (rawChunks s) (encoding s) (paused s).

(** The options an [Output] is built with. *)
Record Output : Type := mkOutput {
  debug : option bool;
  noColor : option bool;
  supportsHyperlink : option bool
}.

Record AuthConfig : Type := mkAuthConfig { token : option string }.

(** A plain configuration object, [{}] when empty. *)
Definition ConfigObject : Type := list (string * string).

Inductive Agent : Type := mkAgent (destroyed : bool).

Record MockClient : Type := mkClient {
  stdin : MockStream;
  stdout : MockStream;
  stderr : MockStream;
  output : Output;
  argv : list string;
  authConfig : AuthConfig;
  config : ConfigObject;
  localConfig : ConfigObject;
  localConfigPath : option string;
  scenario : list string;
  agent : option Agent;
  cwd : string;
  telemetryEventStore : TelemetryEventStore
}.

Section Reset.

(** [const originalCwd = process.cwd()] of the module. *)
Variable originalCwd : string.

Definition reset (this : MockClient) : MockClient :=
  let stdin := new_MockStream in
  let stdout := pause (setEncoding "utf8" new_MockStream) in
  let stderr := set_isTTY true (pause (setEncoding "utf8" new_MockStream)) in
  {| stdin := stdin;
     stdout := stdout;
     stderr := stderr;
     output := mkOutput None None (Some false);
     argv := [];
     authConfig := mkAuthConfig (Some "token_dummy");
     config := [];
     localConfig := [];
     localConfigPath := None;
     scenario := [];
     (* this.agent?.destroy(); this.agent = undefined *)
     agent := None;
     cwd := originalCwd;
     telemetryEventStore := TelemetryEventStore.reset (telemetryEventStore this) |}.

End Reset.

Section Streams.

(** [ignoredAnsi], the set of the two cursor escapes of [ansi-escapes];
    [strip-ansi] and [String.prototype.trim] are library functions. *)
Variable ignoredAnsi : list string.
Variable stripAnsi : string -> string.
Variable trim : string -> string.

(** [MockStream._write], with [str = chunk.toString()]; the call of
    [super._write] passes the chunk on and keeps the three buffers. *)
Definition _write (str : string) (s : MockStream) : MockStream :=
  let fullOutput' := (fullOutput s ++ str)%string in
  let rawChunks' :=
    if negb (existsb (String.eqb str) ignoredAnsi) then rawChunks s ++ [str]
    else rawChunks s in
  let chunks' :=
    if (0 <? String.length (trim (stripAnsi str)))%nat then chunks s ++ [str]
    else chunks s in
  mkStream (isTTY s) fullOutput' chunks' rawChunks' (encoding s) (paused s).

(** [chunks[chunks.length - 1] ?? ''] *)
Definition getLastChunk (raw : option bool) (s : MockStream) : string :=
  let chunks := if truthy raw then rawChunks s else chunks s in
  let lastChunk := nth_error chunks (List.length chunks - 1) in
  match lastChunk with
  | Some lastChunk => lastChunk
  | None => ""
  end.

Definition getFullOutput (s : MockStream) : string := fullOutput s.

End Streams.

Section SetArgv.

(** [process.execPath] *)
Variable execPath : string.

Definition setArgv (argv' : list string) (this : MockClient) : MockClient :=
  {| stdin := stdin this; stdout := stdout this; stderr := stderr this;
     output :=
       mkOutput (Some (existsb (String.eqb "--debug") argv'
                       || existsb (String.eqb "-d") argv'))
                (Some (existsb (String.eqb "--no-color") argv'))
                (Some false);
     argv := execPath :: "cli.js" :: argv';
     authConfig := authConfig this;
     config := config this; localConfig := localConfig this;
     localConfigPath := localConfigPath this; scenario := scenario this;
     agent := agent this; cwd := cwd this;
     telemetryEventStore := telemetryEventStore this |}.

End SetArgv.

Definition resetOutput (this : MockClient) : MockClient :=
  {| stdin := stdin this; stdout := stdout this; stderr := stderr this;
     output := mkOutput None None None;
     argv := argv this; authConfig := authConfig this;
     config := config this; localConfig := localConfig this;
     localConfigPath := localConfigPath this; scenario := scenario this;
     agent := agent this; cwd := cwd this;
     telemetryEventStore := telemetryEventStore this |}.

(** The client as a test finds it after some events were recorded. *)
Definition with_events (this : MockClient) (recorded : list TelemetryEvent) : MockClient :=
  {| stdin := stdin this; stdout := stdout this; stderr := stderr this;
     output := output this; argv := argv this; authConfig := authConfig this;
     config := config this; localConfig := localConfig this;
     localConfigPath := localConfigPath this; scenario := scenario this;
     agent := agent this; cwd := cwd this;
     telemetryEventStore :=
       fold_left (fun st e => TelemetryEventStore.record e st) recorded
                 (telemetryEventStore this) |}.

End MockClient.

(** ** Command handlers *)

(** A handler builds its telemetry client from the client's output sink and
    event store before or after the [--help] test; building it binds the
    two and records nothing, so it leaves no step in the embedding. *)

(** The result of [parseArguments]: positional arguments and typed flags. *)
Record ParsedArgs (Flags : Type) : Type := mkParsedArgs {
  args : list string;
  flags : Flags
}.
Arguments mkParsedArgs {Flags} args flags.
Arguments args {Flags} p.
Arguments flags {Flags} p.

(** The one-character string of a double quote. *)
Definition dquote : string := String (Ascii.ascii_of_nat 34) EmptyString.

(** [a.slice(n)] *)
Definition slice {A : Type} (n : nat) (a : list A) : list A := skipn n a.

(** [a || b] on an optional string: [a] when truthy, else [b]. *)
Definition or_else (a : option string) (b : string) : string :=
  match a with
  | Some s => if truthy s then s else b
  | None => b
  end.

Module Pull.

Record Flags : Type := mkFlags {
  help : option bool;
  yes : option bool;
  prod : option bool;
  git_branch : option string;
  environment : option string
}.

Record ProjectLinked : Type := mkLinked {
  rootDirectory : option string;
  repoRoot : option string
}.

Section Main.

(** Collaborators that are not among the sources. [ensureLink] resolves to
    an exit code or to the link; [envPullCommandLogic] takes the file name,
    the [--yes] flag, the environment, the link, the git branch, the
    directory and the source tag; [writeProjectSettings] takes the
    directory, the link's project and organisation, and whether a
    repository is linked. *)
Variable parseArguments : list string -> Completion (ParsedArgs Flags).
Variable parseTarget : Flags -> option string.
Variable ensureLink : string -> bool -> Telemetry (Z + ProjectLinked).
Variable envPullCommandLogic
  : string -> bool -> string -> ProjectLinked -> option string -> string -> string
    -> Telemetry unit.
Variable writeProjectSettings : string -> ProjectLinked -> bool -> Telemetry unit.
Variable join : string -> string -> string.

(** The methods of [PullTelemetryClient], which is not among the sources. *)
Variable trackCliFlagYes : option bool -> Telemetry unit.
Variable trackCliFlagProd : option bool -> Telemetry unit.
Variable trackCliOptionGitBranch : option string -> Telemetry unit.
Variable trackCliOptionEnvironment : option string -> Telemetry unit.

Definition pullAllEnvFiles (environment : string) (link : ProjectLinked)
           (flags : Flags) (cwd : string) : Telemetry Z :=
  let environmentFile := (".env." ++ environment ++ ".local")%string in
  envPullCommandLogic (join ".vercel" environmentFile) (truthy (yes flags))
                      environment link (git_branch flags) cwd "vercel-cli:pull" ;;
  ret 0%Z.

Definition pullCommandLogic (cwd : string) (autoConfirm : bool)
           (environment : string) (flags : Flags) : Telemetry Z :=
  link <- ensureLink cwd autoConfirm ;;
  match link with
  | inl code => ret code
  | inr link =>
      let cwd :=
        match repoRoot link with
        | Some root => if truthy root then join root (or_else (rootDirectory link) "")
                       else cwd
        | None => cwd
        end in
      pullResultCode <- pullAllEnvFiles environment link flags cwd ;;
      if negb (pullResultCode =? 0)%Z then ret pullResultCode
      else
        (* typeof repoRoot === 'string' *)
        let isRepoLinked :=
          match repoRoot link with Some _ => true | None => false end in
        writeProjectSettings cwd link isRepoLinked ;;
        ret 0%Z
  end.

Definition main (client_argv : list string) (client_cwd : string) : Telemetry Z :=
  match parseArguments (slice 2 client_argv) with
  | Throw error => ret 1%Z
  | Normal parsedArgs =>
      if truthy (help (flags parsedArgs)) then ret 2%Z
      else
        let cwd := or_else (nth_error (args parsedArgs) 1) client_cwd in
        let autoConfirm := truthy (yes (flags parsedArgs)) in
        let isProduction := truthy (prod (flags parsedArgs)) in
        let environment := or_else (parseTarget (flags parsedArgs)) "development" in
        trackCliFlagYes (Some autoConfirm) ;;
        trackCliFlagProd (Some isProduction) ;;
        trackCliOptionGitBranch (git_branch (flags parsedArgs)) ;;
        trackCliOptionEnvironment (Pull.environment (flags parsedArgs)) ;;
        returnCode <- pullCommandLogic cwd autoConfirm environment (flags parsedArgs) ;;
        ret returnCode
  end.

End Main.

Section ParseEnvironment.

(** The helpers of [util/env/env-target], which is not among the sources. *)
Variable isValidEnvTarget : string -> bool.
Variable getEnvTargetPlaceholder : string.

(** The default [environment = 'development'] replaces [undefined] only. *)
Definition parseEnvironment (environment : option string) : Completion string :=
  let environment :=
    match environment with
    | Some environment => environment
    | None => "development"
    end in
  if negb (isValidEnvTarget environment) then
    Throw (Error ("environment " ++ dquote ++ environment ++ dquote
                  ++ " not supported; must be one of "
                  ++ getEnvTargetPlaceholder)%string)
  else Normal environment.

End ParseEnvironment.

End Pull.

Module Init.

Record Flags : Type := mkFlags {
  help : option bool;
  force : option bool
}.

Section Main.

Variable parseArguments : list string -> Completion (ParsedArgs Flags).
Variable getSubcommand : list string -> list string.
(** [init] is handed the telemetry client: it may record and may throw. *)
Variable init : Flags -> list string -> Telemetry Z.

(** The methods of [InitTelemetryClient], which is not among the sources. *)
Variable trackCliArgumentDir : option string -> Telemetry unit.
Variable trackCliFlagForce : option bool -> Telemetry unit.

Definition main (client_argv : list string) : Telemetry Z :=
  match parseArguments (slice 2 client_argv) with
  | Throw error => ret 1%Z
  | Normal parsedArgs =>
      if truthy (help (flags parsedArgs)) then ret 2%Z
      else
        let parsedArgs_args := args parsedArgs in
        let args := getSubcommand (slice 1 parsedArgs_args) in
        if (3 <? List.length parsedArgs_args)%nat then ret 1%Z
        else
          trackCliArgumentDir (nth_error parsedArgs_args 2) ;;
          trackCliFlagForce (force (flags parsedArgs)) ;;
          try_catch (init (flags parsedArgs) args) (fun err => ret 1%Z)
  end.

End Main.

End Init.

Module Target.

Record Flags : Type := mkFlags {
  help : option bool
}.

Section Main.

Variable parseArguments : list string -> Completion (ParsedArgs Flags).
(** [list] is handed the client: it may record and may throw. *)
Variable list_ : list string -> Telemetry Z.

(** The method of [TargetTelemetryClient], which is not among the sources. *)
Variable trackCliSubcommandList : string -> Telemetry unit.

Definition main (client_argv : list string) : Telemetry Z :=
  match parseArguments (slice 2 client_argv) with
  | Throw error => ret 1%Z
  | Normal parsedArgs =>
      if truthy (help (flags parsedArgs)) then ret 2%Z
      else
        let parsedArgs_args := slice 1 (args parsedArgs) in
        let subcommand := nth_error parsedArgs_args 0 in
        let args := slice 1 parsedArgs_args in
        match subcommand with
        | Some subcommand =>
            if (subcommand =? "ls") || (subcommand =? "list") then
              trackCliSubcommandList subcommand ;;
              list_ args
            else ret 2%Z
        | None => ret 2%Z
        end
  end.

End Main.

End Target.

Module DnsRmTelemetryClient.
Import TelemetryClient.

(** Modelled from the spec: the class [DnsRmTelemetryClient] is not among
    the sources. Its method tracks a positional argument, for which the
    spec gives the guard "value truthy" and the action "record an argument
    event with the placeholder"; the key is the argument's name, as for
    the methods of [ListTelemetryClient]. *)
Definition trackCliArgumentRecordId (recordId : option string) : Telemetry unit :=
  if truthy recordId then trackCliArgument "recordId" redactedValue else ret tt.

End DnsRmTelemetryClient.

Module DnsRm.

Record DNSRecord : Type := mkDNSRecord {
  id : string;
  domain : string
}.

Section Rm.

(** The DNS utilities are calls to the remote API; they are not among the
    sources. Each is awaited outside any [try]. *)
Variable getScope : Telemetry string.
Variable getDNSRecordById : string -> Telemetry (option DNSRecord).
Variable deleteDNSRecordById : string -> string -> Telemetry unit.

(** The first chunk the client's [stdin] emits, as a string, and the two
    methods of [String.prototype]. A [stdin] that never emits leaves the
    handler pending; a pending handler has no completion here. *)
Variable stdin_data : Telemetry string.
Variable trim : string -> string.
Variable toLowerCase : string -> string.

(** [readConfirmation] prints the record and the question, and resolves
    when [stdin] emits data. *)
Definition readConfirmation (msg domainName : string) (record : DNSRecord)
  : Telemetry bool :=
  d <- stdin_data ;;
  ret (toLowerCase (trim d) =? "y").

(** [const [recordId] = args] followed by the test [args.length !== 1]:
    past the test, [args] is the one-element array [[recordId]]. *)
Definition rm (args : list string) : Telemetry Z :=
  _ <- getScope ;;
  match args with
  | [recordId] =>
      DnsRmTelemetryClient.trackCliArgumentRecordId (Some recordId) ;;
      record <- getDNSRecordById recordId ;;
      match record with
      | None => ret 1%Z
      | Some record =>
          let domainName := domain record in
          yes <- readConfirmation "The following record will be removed permanently"
                                  domainName record ;;
          if negb yes then ret 0%Z
          else
            deleteDNSRecordById domainName (id record) ;;
            ret 0%Z
      end
  | _ => ret 1%Z
  end.

End Rm.

End DnsRm.

Module DnsImport.

(** What [importZonefile] resolves to: one of two error objects, or the ids
    of the records it created. *)
Inductive ImportResult : Type :=
| DomainNotFound
| InvalidDomain
| RecordIds (recordIds : list string).

Section Add.

(** Both are awaited outside any [try]. *)
Variable getScope : Telemetry string.
Variable importZonefile : string -> string -> string -> Telemetry ImportResult.

(** The methods of [DnsImportTelemetryClient], which is not among the
    sources. *)
Variable trackCliArgumentDomain : string -> Telemetry unit.
Variable trackCliArgumentZoneFilePath : string -> Telemetry unit.

(** The test [args.length !== 2] followed by [const [domain, zonefilePath]
    = args]: past the test, [args] is the two-element array. *)
Definition add (args : list string) : Telemetry Z :=
  contextName <- getScope ;;
  match args with
  | [domain; zonefilePath] =>
      trackCliArgumentDomain domain ;;
      trackCliArgumentZoneFilePath zonefilePath ;;
      recordIds <- importZonefile contextName domain zonefilePath ;;
      match recordIds with
      | DomainNotFound => ret 1%Z
      | InvalidDomain => ret 1%Z
      | RecordIds recordIds => ret 0%Z
      end
  | _ => ret 1%Z
  end.

End Add.

End DnsImport.

(** ** Observing a call *)

(** A sequence of tracking calls, made one after the other as a handler
    makes them. *)
Fixpoint calls (cs : list ListTelemetryClient.Call) : Telemetry unit :=
  match cs with
  | [] => ret tt
  | c :: cs => ListTelemetryClient.call c ;; calls cs
  end.

(** The stream after its [_write] method was invoked with each of the
    chunks, first to last. These are the chunks the stream machinery handed
    to [_write], not the calls of [write()]: a paused stream that has reached
    its high-water mark queues the chunks of later [write()] calls and hands
    them to [_write] only once it is read. *)
Definition handed_to_write (ignoredAnsi : list string) (stripAnsi trim : string -> string)
           (strs : list string) (s : MockClient.MockStream) : MockClient.MockStream :=
  fold_left (fun s str => MockClient._write ignoredAnsi stripAnsi trim str s) strs s.

(** The store a computation leaves behind. *)
Definition store_after {A : Type} (c : Telemetry A) (st : TelemetryEventStore)
  : TelemetryEventStore := snd (c st).

(** The events a computation recorded: those past the ones already there. *)
Definition recorded {A : Type} (c : Telemetry A) (st : TelemetryEventStore)
  : list TelemetryEvent :=
  skipn (List.length (events st)) (events (store_after c st)).

(** Membership of a string in an array of strings. *)
Definition includes (l : list string) (s : string) : bool :=
  existsb (String.eqb s) l.

(** The four methods whose field is sensitive whatever its content: their
    event never carries the content. *)
Definition sensitive (c : ListTelemetryClient.Call) : bool :=
  match c with
  | ListTelemetryClient.OptionMeta _
  | ListTelemetryClient.OptionPolicy _
  | ListTelemetryClient.OptionNext _
  | ListTelemetryClient.ArgumentApp _ => true
  | _ => false
  end.

(** The strings the user supplied in a call: the string itself, or the
    elements of the array. A number or a boolean is no string. *)
Definition supplied (c : ListTelemetryClient.Call) : list string :=
  match c with
  | ListTelemetryClient.OptionMeta (Some meta) => meta
  | ListTelemetryClient.OptionPolicy (Some policy) => policy
  | ListTelemetryClient.OptionEnvironment (Some environment) => [environment]
  | ListTelemetryClient.ArgumentApp (Some app) => [app]
  | _ => []
  end.

(** ** Basic facts *)

Lemma record_events (e : TelemetryEvent) (st : TelemetryEventStore) :
  events (TelemetryEventStore.record e st) = events st ++ [e].
Proof. reflexivity. Qed.

Lemma store_eta (st : TelemetryEventStore) : mkStore (events st) = st.
Proof. destruct st; reflexivity. Qed.

Lemma recorded_nothing {A : Type} (c : Telemetry A) (st : TelemetryEventStore) :
  store_after c st = st -> recorded c st = [].
Proof.
  unfold recorded; intros ->. apply skipn_all.
Qed.

Lemma recorded_one {A : Type} (c : Telemetry A) (st : TelemetryEventStore)
      (e : TelemetryEvent) :
  store_after c st = TelemetryEventStore.record e st -> recorded c st = [e].
Proof.
  unfold recorded; intros ->. rewrite record_events.
  rewrite skipn_app, skipn_all, Nat.sub_diag. reflexivity.
Qed.

Lemma truthy_string_nonempty (s : string) : truthy s = true <-> s <> "".
Proof.
  destruct s; cbn; split; intros; congruence.
Qed.

Lemma redactedValue_truthy : truthy TelemetryClient.redactedValue = true.
Proof. reflexivity. Qed.

(** ** What each method of [ListTelemetryClient] does *)

Section ListTelemetryClientFacts.
Import TelemetryClient ListTelemetryClient.

Variable st : TelemetryEventStore.

Lemma trackCliOptionMeta_run (meta : option (list string)) :
  trackCliOptionMeta meta st =
  (Normal tt,
   match meta with
   | Some (_ :: _) =>
       TelemetryEventStore.record (mkEvent option_kind "meta" (Some redactedValue)) st
   | _ => st
   end).
Proof. destruct meta as [[|s l]|]; reflexivity. Qed.

Lemma trackCliOptionPolicy_run (policy : option (list string)) :
  trackCliOptionPolicy policy st =
  (Normal tt,
   match policy with
   | Some (_ :: _) =>
       TelemetryEventStore.record (mkEvent option_kind "policy" (Some redactedValue)) st
   | _ => st
   end).
Proof. destruct policy as [[|s l]|]; reflexivity. Qed.

Lemma trackCliOptionEnvironment_run (environment : option string) :
  trackCliOptionEnvironment environment st =
  (Normal tt,
   match environment with
   | Some (String c s) =>
       TelemetryEventStore.record
         (mkEvent option_kind "environment"
                  (Some (if includes ["production"; "preview"] (String c s)
                         then String c s else redactedValue))) st
   | _ => st
   end).
Proof.
  destruct environment as [[|c s]|]; try reflexivity.
  unfold trackCliOptionEnvironment, includes; cbn [truthy Truthy_string existsb].
  destruct (String c s =? "production"); [reflexivity|].
  destruct (String c s =? "preview"); reflexivity.
Qed.

Lemma trackCliOptionNext_run (next : option number) :
  trackCliOptionNext next st =
  (Normal tt,
   if truthy next
   then TelemetryEventStore.record (mkEvent option_kind "next" (Some redactedValue)) st
   else st).
Proof. unfold trackCliOptionNext. destruct (truthy next); reflexivity. Qed.

Lemma trackCliFlag_run (method : option bool -> Telemetry unit) (name : string)
      (flag : option bool) :
  (forall f, method f = if truthy f then trackCliFlag name else ret tt) ->
  method flag st =
  (Normal tt,
   match flag with
   | Some true => TelemetryEventStore.record (mkEvent flag_kind name None) st
   | _ => st
   end).
Proof. intros ->. destruct flag as [[|]|]; reflexivity. Qed.

Lemma trackCliArgumentApp_run (app : option string) :
  trackCliArgumentApp app st =
  (Normal tt,
   match app with
   | Some (String _ _) =>
       TelemetryEventStore.record (mkEvent argument_kind "app" (Some redactedValue)) st
   | _ => st
   end).
Proof. destruct app as [[|c s]|]; reflexivity. Qed.

End ListTelemetryClientFacts.

(** A call appends at most one event, and completes normally. *)
Lemma call_outcome (c : ListTelemetryClient.Call) (st : TelemetryEventStore) :
  ListTelemetryClient.call c st = (Normal tt, st) \/
  exists e, ListTelemetryClient.call c st = (Normal tt, TelemetryEventStore.record e st).
Proof.
  destruct c as [m|p|e|n|f|f|f|a]; cbn [ListTelemetryClient.call].
  - rewrite trackCliOptionMeta_run. destruct m as [[|? ?]|]; eauto.
  - rewrite trackCliOptionPolicy_run. destruct p as [[|? ?]|]; eauto.
  - rewrite trackCliOptionEnvironment_run. destruct e as [[|? ?]|]; eauto.
  - rewrite trackCliOptionNext_run. destruct (truthy n); eauto.
  - rewrite (trackCliFlag_run _ _ "prod") by reflexivity. destruct f as [[|]|]; eauto.
  - rewrite (trackCliFlag_run _ _ "yes") by reflexivity. destruct f as [[|]|]; eauto.
  - rewrite (trackCliFlag_run _ _ "confirm") by reflexivity. destruct f as [[|]|]; eauto.
  - rewrite trackCliArgumentApp_run. destruct a as [[|? ?]|]; eauto.
Qed.

(** The event a sensitive method records carries the placeholder. *)
Lemma sensitive_recorded_value (c : ListTelemetryClient.Call)
      (st : TelemetryEventStore) (e : TelemetryEvent) :
  sensitive c = true ->
  In e (recorded (ListTelemetryClient.call c) st) ->
  value e = Some TelemetryClient.redactedValue.
Proof.
  intros Hs Hin.
  assert (Hone : forall e', store_after (ListTelemetryClient.call c) st
                            = TelemetryEventStore.record e' st ->
                            value e' = Some TelemetryClient.redactedValue ->
                            value e = Some TelemetryClient.redactedValue).
  { intros e' Hst Hv. rewrite (recorded_one _ _ _ Hst) in Hin.
    destruct Hin as [<-|[]]. exact Hv. }
  assert (Hnone : store_after (ListTelemetryClient.call c) st = st ->
                  value e = Some TelemetryClient.redactedValue).
  { intros Hst. rewrite (recorded_nothing _ _ Hst) in Hin. destruct Hin. }
  unfold store_after in Hone, Hnone.
  destruct c as [m|p|v|n|f|f|f|a]; try discriminate Hs;
    cbn [ListTelemetryClient.call] in Hone, Hnone.
  - rewrite trackCliOptionMeta_run in Hone, Hnone.
    destruct m as [[|? ?]|]; auto. eapply Hone; reflexivity.
  - rewrite trackCliOptionPolicy_run in Hone, Hnone.
    destruct p as [[|? ?]|]; auto. eapply Hone; reflexivity.
  - rewrite trackCliOptionNext_run in Hone, Hnone.
    destruct (truthy n); auto. eapply Hone; reflexivity.
  - rewrite trackCliArgumentApp_run in Hone, Hnone.
    destruct a as [[|? ?]|]; auto. eapply Hone; reflexivity.
Qed.

(** ** Redaction of sensitive fields *)

(** C1, as stated, fails: called with the placeholder string itself as the
    application name, [trackCliArgumentApp] records one event whose value is
    the string the user supplied. *)
Lemma sensitive_value_may_equal_input :
  let c := ListTelemetryClient.ArgumentApp (Some "[REDACTED]") in
  sensitive c = true /\
  exists e,
    recorded (ListTelemetryClient.call c) (mkStore []) = [e] /\
    In "[REDACTED]" (supplied c) /\
    value e = Some "[REDACTED]".
Proof.
  cbn. split; [reflexivity|].
  eexists; split; [reflexivity|]. split; [left|]; reflexivity.
Qed.

(** C1 (amended): whenever one of the sensitive methods [trackCliOptionMeta],
    [trackCliOptionPolicy], [trackCliOptionNext], [trackCliArgumentApp]
    records an event, the event's value is the redaction placeholder; hence
    it differs from every string the user supplied (the string itself or an
    element of the array) that is not itself the placeholder. *)
Theorem sensitive_value_is_placeholder
        (c : ListTelemetryClient.Call) (st : TelemetryEventStore) (e : TelemetryEvent) :
  sensitive c = true ->
  In e (recorded (ListTelemetryClient.call c) st) ->
  value e = Some TelemetryClient.redactedValue /\
  forall s, In s (supplied c) -> s <> TelemetryClient.redactedValue -> value e <> Some s.
Proof.
  intros Hs Hin.
  pose proof (sensitive_recorded_value c st e Hs Hin) as Hv.
  split; [exact Hv|].
  intros s _ Hne Heq. rewrite Hv in Heq. injection Heq as Heq. congruence.
Qed.

Lemma sensitive_value_is_placeholder_witness :
  let c := ListTelemetryClient.OptionMeta (Some ["a=1"; "b=2"]) in
  let e := mkEvent option_kind "meta" (Some "[REDACTED]") in
  sensitive c = true /\
  In e (recorded (ListTelemetryClient.call c) (mkStore [])) /\
  value e = Some TelemetryClient.redactedValue /\
  forall s, In s (supplied c) -> s <> TelemetryClient.redactedValue -> value e <> Some s.
Proof.
  cbv zeta.
  assert (Hs : sensitive (ListTelemetryClient.OptionMeta (Some ["a=1"; "b=2"])) = true)
    by reflexivity.
  assert (Hin : In (mkEvent option_kind "meta" (Some "[REDACTED]"))
                   (recorded (ListTelemetryClient.call
                                (ListTelemetryClient.OptionMeta (Some ["a=1"; "b=2"])))
                             (mkStore [])))
    by (cbn; left; reflexivity).
  split; [exact Hs|]. split; [exact Hin|].
  exact (sensitive_value_is_placeholder _ _ _ Hs Hin).
Defined.

(** ** The environment option *)

(** C2: for every non-empty string given to [trackCliOptionEnvironment], a
    string outside the allow-list of "production" and "preview" records
    exactly one option event with key "environment" and the placeholder as
    value; "production" and "preview" record exactly one option event whose
    value is the input verbatim. *)
Theorem environment_allow_list (environment : string) (st : TelemetryEventStore) :
  environment <> "" ->
  (~ In environment ["production"; "preview"] ->
   ListTelemetryClient.trackCliOptionEnvironment (Some environment) st =
   (Normal tt,
    TelemetryEventStore.record
      (mkEvent option_kind "environment" (Some TelemetryClient.redactedValue)) st)) /\
  (In environment ["production"; "preview"] ->
   ListTelemetryClient.trackCliOptionEnvironment (Some environment) st =
   (Normal tt,
    TelemetryEventStore.record
      (mkEvent option_kind "environment" (Some environment)) st)) /\
  exists e, recorded (ListTelemetryClient.trackCliOptionEnvironment (Some environment)) st
            = [e] /\ kind e = option_kind /\ key e = "environment".
Proof.
  intros Hne.
  rewrite trackCliOptionEnvironment_run.
  destruct environment as [|c s]; [congruence|].
  unfold includes; cbn [existsb].
  repeat split.
  - intros Hout.
    destruct (String.eqb_spec (String c s) "production") as [E|_];
      [exfalso; apply Hout; rewrite E; cbn; auto|].
    destruct (String.eqb_spec (String c s) "preview") as [E|_];
      [exfalso; apply Hout; rewrite E; cbn; auto|].
    reflexivity.
  - intros [E|[E|[]]]; rewrite <- E; reflexivity.
  - eexists. split.
    + apply recorded_one. unfold store_after.
      rewrite trackCliOptionEnvironment_run. reflexivity.
    + split; reflexivity.
Qed.

Lemma environment_allow_list_witness :
  "staging" <> "" /\
  ListTelemetryClient.trackCliOptionEnvironment (Some "staging") (mkStore []) =
  (Normal tt, mkStore [mkEvent option_kind "environment" (Some "[REDACTED]")]) /\
  "production" <> "" /\
  ListTelemetryClient.trackCliOptionEnvironment (Some "production") (mkStore []) =
  (Normal tt, mkStore [mkEvent option_kind "environment" (Some "production")]).
Proof.
  assert (Hs : "staging" <> "") by discriminate.
  assert (Hp : "production" <> "") by discriminate.
  split; [exact Hs|]. split.
  - apply (proj1 (environment_allow_list "staging" (mkStore []) Hs)).
    cbn. intros [E|[E|[]]]; discriminate E.
  - split; [exact Hp|].
    apply (proj1 (proj2 (environment_allow_list "production" (mkStore []) Hp))).
    cbn. left. reflexivity.
Defined.

(** ** Boolean flags *)

(** C3: each of [trackCliFlagProd], [trackCliFlagYes], [trackCliFlagConfirm]
    records nothing when called with [false] or [undefined], and records
    exactly one flag event carrying its fixed name ("prod", "yes",
    "confirm") when called with [true]. *)
Theorem flag_trackers (st : TelemetryEventStore) :
  Forall (fun '(method, name) =>
            method None st = (Normal tt, st) /\
            method (Some false) st = (Normal tt, st) /\
            exists e,
              method (Some true) st = (Normal tt, TelemetryEventStore.record e st) /\
              recorded (method (Some true)) st = [e] /\
              kind e = flag_kind /\ key e = name)
         [(ListTelemetryClient.trackCliFlagProd, "prod");
          (ListTelemetryClient.trackCliFlagYes, "yes");
          (ListTelemetryClient.trackCliFlagConfirm, "confirm")].
Proof.
  repeat constructor;
    (eexists; split; [reflexivity|]; split;
     [apply recorded_one; reflexivity | split; reflexivity]).
Qed.

(** ** Absent and empty inputs *)

(** C4: each optional array, string or scalar method of the client
    ([trackCliOptionMeta], [trackCliOptionPolicy], [trackCliOptionEnvironment],
    [trackCliOptionNext], [trackCliArgumentApp]) records nothing when called
    with [undefined] or with the empty value of its parameter's type: the
    empty array, the empty string, the number 0. *)
Theorem empty_input_records_nothing (st : TelemetryEventStore) :
  let silent (c : ListTelemetryClient.Call) :=
    ListTelemetryClient.call c st = (Normal tt, st) /\
    recorded (ListTelemetryClient.call c) st = [] in
  Forall silent
         [ListTelemetryClient.OptionMeta None;
          ListTelemetryClient.OptionMeta (Some []);
          ListTelemetryClient.OptionPolicy None;
          ListTelemetryClient.OptionPolicy (Some []);
          ListTelemetryClient.OptionEnvironment None;
          ListTelemetryClient.OptionEnvironment (Some "");
          ListTelemetryClient.OptionNext None;
          ListTelemetryClient.OptionNext (Some (S754_zero false));
          ListTelemetryClient.OptionNext (Some (S754_zero true));
          ListTelemetryClient.ArgumentApp None;
          ListTelemetryClient.ArgumentApp (Some "")].
Proof.
  cbv zeta.
  repeat constructor; apply recorded_nothing; reflexivity.
Qed.

(** ** Idempotence of redaction *)

(** C5: redaction is idempotent. For every field that takes strings, a call
    whose supplied value is already the placeholder records an event whose
    value is the placeholder again; so does [trackCliOptionEnvironment] called
    with the placeholder string; and feeding the value that
    [trackCliOptionEnvironment] recorded back into it records that same value
    (repeated application is stable). *)
Theorem redaction_idempotent (st : TelemetryEventStore) :
  (forall c, supplied c = [TelemetryClient.redactedValue] ->
     exists e,
       ListTelemetryClient.call c st = (Normal tt, TelemetryEventStore.record e st) /\
       value e = Some TelemetryClient.redactedValue) /\
  ListTelemetryClient.trackCliOptionEnvironment (Some TelemetryClient.redactedValue) st =
  (Normal tt,
   TelemetryEventStore.record
     (mkEvent option_kind "environment" (Some TelemetryClient.redactedValue)) st) /\
  (forall environment e v st',
     In e (recorded (ListTelemetryClient.trackCliOptionEnvironment environment) st) ->
     value e = Some v ->
     ListTelemetryClient.trackCliOptionEnvironment (Some v) st' =
     (Normal tt,
      TelemetryEventStore.record (mkEvent option_kind "environment" (Some v)) st')).
Proof.
  split; [|split].
  - intros c Hc.
    destruct c as [[m|]|[p|]|[v|]|n|f|f|f|[a|]]; cbn in Hc; try discriminate Hc.
    + subst m. eexists; split; reflexivity.
    + subst p. eexists; split; reflexivity.
    + injection Hc as ->.
      exists (mkEvent option_kind "environment" (Some TelemetryClient.redactedValue)).
      split; reflexivity.
    + injection Hc as ->.
      exists (mkEvent argument_kind "app" (Some TelemetryClient.redactedValue)).
      split; reflexivity.
  - reflexivity.
  - intros environment e v st' Hin Hv.
    unfold recorded, store_after in Hin.
    rewrite trackCliOptionEnvironment_run in Hin.
    destruct environment as [[|c s]|]; cbn [snd] in Hin;
      try (rewrite skipn_all in Hin; destruct Hin).
    remember (includes ["production"; "preview"] (String c s)) as allowed eqn:Hallowed.
    rewrite record_events, skipn_app, skipn_all, Nat.sub_diag in Hin.
    destruct Hin as [<-|[]]. cbn [value] in Hv. injection Hv as <-.
    destruct allowed.
    + rewrite trackCliOptionEnvironment_run, <- Hallowed. reflexivity.
    + reflexivity.
Qed.

Lemma redaction_idempotent_witness :
  supplied (ListTelemetryClient.ArgumentApp (Some "[REDACTED]"))
  = [TelemetryClient.redactedValue] /\
  (exists e,
      ListTelemetryClient.call (ListTelemetryClient.ArgumentApp (Some "[REDACTED]"))
                               (mkStore [])
      = (Normal tt, TelemetryEventStore.record e (mkStore [])) /\
      value e = Some TelemetryClient.redactedValue) /\
  In (mkEvent option_kind "environment" (Some "[REDACTED]"))
     (recorded (ListTelemetryClient.trackCliOptionEnvironment (Some "staging"))
               (mkStore [])) /\
  ListTelemetryClient.trackCliOptionEnvironment (Some "[REDACTED]") (mkStore []) =
  (Normal tt, mkStore [mkEvent option_kind "environment" (Some "[REDACTED]")]).
Proof.
  assert (Hs : supplied (ListTelemetryClient.ArgumentApp (Some "[REDACTED]"))
               = [TelemetryClient.redactedValue]) by reflexivity.
  assert (Hin : In (mkEvent option_kind "environment" (Some "[REDACTED]"))
                   (recorded (ListTelemetryClient.trackCliOptionEnvironment
                                (Some "staging")) (mkStore [])))
    by (cbn; left; reflexivity).
  split; [exact Hs|]. split.
  - exact (proj1 (redaction_idempotent (mkStore [])) _ Hs).
  - split; [exact Hin|].
    exact (proj2 (proj2 (redaction_idempotent (mkStore [])))
                 (Some "staging") _ "[REDACTED]" (mkStore []) Hin eq_refl).
Defined.

(** ** Frame of a tracking call *)

(** C6: a call of any tracking method of the client appends at most one
    event and leaves the events recorded before, and their order, as they
    were: the store after the call is the store before it, or the store
    before it extended by exactly one event at its end. *)
Theorem call_appends_at_most_one (c : ListTelemetryClient.Call)
        (st : TelemetryEventStore) :
  store_after (ListTelemetryClient.call c) st = st \/
  exists e, events (store_after (ListTelemetryClient.call c) st) = events st ++ [e].
Proof.
  unfold store_after.
  destruct (call_outcome c st) as [H|[e H]]; rewrite H; cbn [snd].
  - left. reflexivity.
  - right. exists e. apply record_events.
Qed.

(** ** Reset of the mock client *)

(** C7: whatever the event store holds, [reset()] leaves it with zero
    events; in particular a store in which five more events were recorded
    holds none after [reset()]. *)
Theorem reset_clears_events (originalCwd : string) (this : MockClient.MockClient) :
  events (MockClient.telemetryEventStore (MockClient.reset originalCwd this)) = [] /\
  forall e1 e2 e3 e4 e5,
    let busy := MockClient.with_events this [e1; e2; e3; e4; e5] in
    List.length (events (MockClient.telemetryEventStore busy))
    = (List.length (events (MockClient.telemetryEventStore this)) + 5)%nat /\
    List.length (events (MockClient.telemetryEventStore (MockClient.reset originalCwd busy)))
    = 0%nat.
Proof.
  split; [reflexivity|].
  intros e1 e2 e3 e4 e5; cbv zeta. split; [|reflexivity].
  cbn. repeat rewrite length_app. cbn. lia.
Qed.

(** ** Totality *)

(** C8: every tracking method of the client is total and does not throw:
    for every input, [undefined], 0, the empty string and the empty array
    included, the call completes normally, having recorded one event or
    none. *)
Theorem call_never_throws (c : ListTelemetryClient.Call) (st : TelemetryEventStore) :
  (exists st', ListTelemetryClient.call c st = (Normal tt, st')) /\
  (forall error, fst (ListTelemetryClient.call c st) <> Throw error) /\
  (recorded (ListTelemetryClient.call c) st = [] \/
   exists e, recorded (ListTelemetryClient.call c) st = [e]).
Proof.
  destruct (call_outcome c st) as [H|[e H]].
  - split; [eauto|]. split.
    + intros error. rewrite H. discriminate.
    + left. apply recorded_nothing. unfold store_after. rewrite H. reflexivity.
  - split; [eauto|]. split.
    + intros error. rewrite H. discriminate.
    + right. exists e. apply recorded_one. unfold store_after. rewrite H. reflexivity.
Qed.

(** ** The [--help] flag *)

Section HelpFlag.

Variable pull_parseArguments : list string -> Completion (ParsedArgs Pull.Flags).
Variable parseTarget : Pull.Flags -> option string.
Variable ensureLink : string -> bool -> Telemetry (Z + Pull.ProjectLinked).
Variable envPullCommandLogic
  : string -> bool -> string -> Pull.ProjectLinked -> option string -> string -> string
    -> Telemetry unit.
Variable writeProjectSettings : string -> Pull.ProjectLinked -> bool -> Telemetry unit.
Variable join : string -> string -> string.
Variables pull_trackCliFlagYes pull_trackCliFlagProd : option bool -> Telemetry unit.
Variables trackCliOptionGitBranch pull_trackCliOptionEnvironment
  : option string -> Telemetry unit.

Variable init_parseArguments : list string -> Completion (ParsedArgs Init.Flags).
Variable getSubcommand : list string -> list string.
Variable init : Init.Flags -> list string -> Telemetry Z.
Variable trackCliArgumentDir : option string -> Telemetry unit.
Variable trackCliFlagForce : option bool -> Telemetry unit.

Variable target_parseArguments : list string -> Completion (ParsedArgs Target.Flags).
Variable list_ : list string -> Telemetry Z.
Variable trackCliSubcommandList : string -> Telemetry unit.

(** C9: when the parsed flags contain [--help], each of the handlers of
    [pull], [init] and [target] returns exit code 2 and records no
    telemetry event, whatever its tracking methods and collaborators do:
    every tracking call lies past the [--help] test. *)
Theorem help_returns_2_without_tracking (argv : list string) (cwd : string)
        (st : TelemetryEventStore) :
  (forall parsedArgs,
      pull_parseArguments (slice 2 argv) = Normal parsedArgs ->
      truthy (Pull.help (flags parsedArgs)) = true ->
      Pull.main pull_parseArguments parseTarget ensureLink envPullCommandLogic
                writeProjectSettings join
                pull_trackCliFlagYes pull_trackCliFlagProd
                trackCliOptionGitBranch pull_trackCliOptionEnvironment
                argv cwd st = (Normal 2%Z, st)) /\
  (forall parsedArgs,
      init_parseArguments (slice 2 argv) = Normal parsedArgs ->
      truthy (Init.help (flags parsedArgs)) = true ->
      Init.main init_parseArguments getSubcommand init
                trackCliArgumentDir trackCliFlagForce argv st = (Normal 2%Z, st)) /\
  (forall parsedArgs,
      target_parseArguments (slice 2 argv) = Normal parsedArgs ->
      truthy (Target.help (flags parsedArgs)) = true ->
      Target.main target_parseArguments list_ trackCliSubcommandList argv st
      = (Normal 2%Z, st)).
Proof.
  repeat split; intros parsedArgs Hparse Hhelp.
  - unfold Pull.main. rewrite Hparse, Hhelp. reflexivity.
  - unfold Init.main. rewrite Hparse, Hhelp. reflexivity.
  - unfold Target.main. rewrite Hparse, Hhelp. reflexivity.
Qed.

End HelpFlag.

Lemma help_returns_2_without_tracking_witness :
  let track {A : Type} (k : string) : A -> Telemetry unit :=
    fun _ => TelemetryClient.trackCliOption k "called" in
  let pull_flags := Pull.mkFlags (Some true) (Some true) None None (Some "preview") in
  let init_flags := Init.mkFlags (Some true) (Some true) in
  let target_flags := Target.mkFlags (Some true) in
  let argv := ["node"; "cli.js"; "cmd"; "--help"] in
  Pull.main (fun a => Normal (mkParsedArgs a pull_flags)) (fun _ => None)
            (fun _ _ => ret (inl 0%Z)) (fun _ _ _ _ _ _ _ => ret tt)
            (fun _ _ _ => ret tt) append
            (track "yes") (track "prod") (track "git-branch") (track "environment")
            argv "/" (mkStore []) = (Normal 2%Z, mkStore []) /\
  Init.main (fun a => Normal (mkParsedArgs a init_flags)) (fun a => a)
            (fun _ _ => ret 0%Z) (track "dir") (track "force")
            argv (mkStore []) = (Normal 2%Z, mkStore []) /\
  Target.main (fun a => Normal (mkParsedArgs a target_flags)) (fun _ => ret 0%Z)
              (track "list") argv (mkStore []) = (Normal 2%Z, mkStore []).
Proof.
  cbv zeta.
  pose proof (help_returns_2_without_tracking
                (fun a => Normal (mkParsedArgs a
                   (Pull.mkFlags (Some true) (Some true) None None (Some "preview"))))
                (fun _ => None) (fun _ _ => ret (inl 0%Z))
                (fun _ _ _ _ _ _ _ => ret tt) (fun _ _ _ => ret tt) append
                (fun _ => TelemetryClient.trackCliOption "yes" "called")
                (fun _ => TelemetryClient.trackCliOption "prod" "called")
                (fun _ => TelemetryClient.trackCliOption "git-branch" "called")
                (fun _ => TelemetryClient.trackCliOption "environment" "called")
                (fun a => Normal (mkParsedArgs a (Init.mkFlags (Some true) (Some true))))
                (fun a => a) (fun _ _ => ret 0%Z)
                (fun _ => TelemetryClient.trackCliOption "dir" "called")
                (fun _ => TelemetryClient.trackCliOption "force" "called")
                (fun a => Normal (mkParsedArgs a (Target.mkFlags (Some true))))
                (fun _ => ret 0%Z)
                (fun _ => TelemetryClient.trackCliOption "list" "called")
                ["node"; "cli.js"; "cmd"; "--help"] "/" (mkStore []))
    as [Hpull [Hinit Htarget]].
  split; [|split].
  - exact (Hpull _ eq_refl eq_refl).
  - exact (Hinit _ eq_refl eq_refl).
  - exact (Htarget _ eq_refl eq_refl).
Defined.

(** ** The [dns rm] handler *)




(** ** Sequences of tracking calls *)

(** What a call appends does not depend on the store it is made on. *)
Lemma call_appends (c : ListTelemetryClient.Call) (st : TelemetryEventStore) :
  ListTelemetryClient.call c st =
  (Normal tt, mkStore (events st ++ recorded (ListTelemetryClient.call c) (mkStore []))).
Proof.
  assert (Hsame : (Normal tt, st) = (Normal tt, mkStore (events st ++ [])))
    by (rewrite app_nil_r, store_eta; reflexivity).
  unfold recorded, store_after.
  destruct c as [m|p|v|n|f|f|f|a]; cbn [ListTelemetryClient.call].
  - rewrite !trackCliOptionMeta_run. destruct m as [[|? ?]|]; first [exact Hsame|reflexivity].
  - rewrite !trackCliOptionPolicy_run. destruct p as [[|? ?]|]; first [exact Hsame|reflexivity].
  - rewrite !trackCliOptionEnvironment_run.
    destruct v as [[|? ?]|]; first [exact Hsame|reflexivity].
  - rewrite !trackCliOptionNext_run. destruct (truthy n); first [exact Hsame|reflexivity].
  - rewrite !(trackCliFlag_run _ _ "prod") by reflexivity.
    destruct f as [[|]|]; first [exact Hsame|reflexivity].
  - rewrite !(trackCliFlag_run _ _ "yes") by reflexivity.
    destruct f as [[|]|]; first [exact Hsame|reflexivity].
  - rewrite !(trackCliFlag_run _ _ "confirm") by reflexivity.
    destruct f as [[|]|]; first [exact Hsame|reflexivity].
  - rewrite !trackCliArgumentApp_run. destruct a as [[|? ?]|]; first [exact Hsame|reflexivity].
Qed.

Lemma recorded_at_most_one (c : ListTelemetryClient.Call) (st : TelemetryEventStore) :
  (List.length (recorded (ListTelemetryClient.call c) st) <= 1)%nat.
Proof.
  destruct (call_outcome c st) as [H|[e H]].
  - rewrite recorded_nothing; [cbn; lia|]. unfold store_after. rewrite H. reflexivity.
  - rewrite (recorded_one _ _ e); [cbn; lia|]. unfold store_after. rewrite H. reflexivity.
Qed.

Lemma calls_run (cs : list ListTelemetryClient.Call) (st : TelemetryEventStore) :
  calls cs st =
  (Normal tt,
   mkStore (events st ++
            flat_map (fun c => recorded (ListTelemetryClient.call c) (mkStore [])) cs)).
Proof.
  revert st. induction cs as [|c cs IH]; intros st.
  - cbn. rewrite app_nil_r, store_eta. reflexivity.
  - cbn [calls flat_map]. unfold bind. rewrite call_appends, IH.
    cbn [events]. rewrite app_assoc. reflexivity.
Qed.

Lemma calls_recorded (cs : list ListTelemetryClient.Call) (st : TelemetryEventStore) :
  recorded (calls cs) st =
  flat_map (fun c => recorded (ListTelemetryClient.call c) (mkStore [])) cs.
Proof.
  unfold recorded, store_after. rewrite calls_run. cbn [snd events].
  rewrite skipn_app, skipn_all, Nat.sub_diag. reflexivity.
Qed.

(** X1: a sequence of tracking calls completes normally and appends, in the
    order of the calls, exactly the events each call records on its own; the
    events recorded before are kept in front, and there is at most one new
    event per call. *)
Theorem calls_append_in_order (cs : list ListTelemetryClient.Call)
        (st : TelemetryEventStore) :
  let each := flat_map (fun c => recorded (ListTelemetryClient.call c) (mkStore [])) cs in
  calls cs st = (Normal tt, mkStore (events st ++ each)) /\
  recorded (calls cs) st = each /\
  (List.length each <= List.length cs)%nat.
Proof.
  cbv zeta. split; [apply calls_run|]. split; [apply calls_recorded|].
  induction cs as [|c cs IH]; [cbn; lia|].
  cbn [flat_map]. rewrite length_app. cbn [List.length].
  pose proof (recorded_at_most_one c (mkStore [])). lia.
Qed.

(** The events one call can record, whatever its argument. *)
Lemma call_event_fixed (c : ListTelemetryClient.Call) (e : TelemetryEvent) :
  In e (recorded (ListTelemetryClient.call c) (mkStore [])) ->
  In e [mkEvent option_kind "meta" (Some TelemetryClient.redactedValue);
        mkEvent option_kind "policy" (Some TelemetryClient.redactedValue);
        mkEvent option_kind "environment" (Some TelemetryClient.redactedValue);
        mkEvent option_kind "environment" (Some "production");
        mkEvent option_kind "environment" (Some "preview");
        mkEvent option_kind "next" (Some TelemetryClient.redactedValue);
        mkEvent flag_kind "prod" None;
        mkEvent flag_kind "yes" None;
        mkEvent flag_kind "confirm" None;
        mkEvent argument_kind "app" (Some TelemetryClient.redactedValue)].
Proof.
  unfold recorded, store_after.
  destruct c as [m|p|v|n|f|f|f|a]; cbn [ListTelemetryClient.call].
  - rewrite trackCliOptionMeta_run. destruct m as [[|? ?]|]; cbn; intuition.
  - rewrite trackCliOptionPolicy_run. destruct p as [[|? ?]|]; cbn; intuition.
  - rewrite trackCliOptionEnvironment_run. destruct v as [[|c s]|];
      try (cbn; intuition; fail).
    unfold includes; cbn [existsb snd events List.length skipn
                          TelemetryEventStore.record app].
    destruct (String.eqb_spec (String c s) "production") as [->|_].
    { cbn. intuition. }
    destruct (String.eqb_spec (String c s) "preview") as [->|_]; cbn; intuition.
  - rewrite trackCliOptionNext_run. destruct (truthy n); cbn; intuition.
  - rewrite (trackCliFlag_run _ _ "prod") by reflexivity.
    destruct f as [[|]|]; cbn; intuition.
  - rewrite (trackCliFlag_run _ _ "yes") by reflexivity.
    destruct f as [[|]|]; cbn; intuition.
  - rewrite (trackCliFlag_run _ _ "confirm") by reflexivity.
    destruct f as [[|]|]; cbn; intuition.
  - rewrite trackCliArgumentApp_run. destruct a as [[|? ?]|]; cbn; intuition.
Qed.

(** X2: whatever the arguments, every event a sequence of tracking calls
    records has one of eight fixed pairs of kind and key; the value of an
    option or argument event is the placeholder, "production" or "preview",
    the latter two only under the key "environment", so no other text of the
    user reaches the store; and no subcommand event is ever recorded. *)
Theorem calls_record_fixed_events (cs : list ListTelemetryClient.Call)
        (st : TelemetryEventStore) (e : TelemetryEvent) :
  In e (recorded (calls cs) st) ->
  In (kind e, key e)
     [(option_kind, "meta"); (option_kind, "policy"); (option_kind, "environment");
      (option_kind, "next"); (flag_kind, "prod"); (flag_kind, "yes");
      (flag_kind, "confirm"); (argument_kind, "app")] /\
  (kind e <> flag_kind ->
   In (value e) [Some TelemetryClient.redactedValue; Some "production"; Some "preview"]) /\
  (value e = Some "production" \/ value e = Some "preview" -> key e = "environment") /\
  kind e <> subcommand_kind.
Proof.
  rewrite calls_recorded, in_flat_map. intros [c [_ Hin]].
  pose proof (call_event_fixed c e Hin) as Hfixed.
  cbn in Hfixed.
  repeat (destruct Hfixed as [<-|Hfixed];
          [cbn; repeat split;
           try tauto; try discriminate; try (intros H; exfalso; apply H; reflexivity);
           try (intros [H|H]; discriminate H)|]).
  destruct Hfixed.
Qed.

Lemma calls_record_fixed_events_witness :
  let cs := [ListTelemetryClient.OptionMeta (Some ["secret=1"]);
             ListTelemetryClient.OptionEnvironment (Some "my-staging");
             ListTelemetryClient.ArgumentApp (Some "my-app")] in
  let e := mkEvent option_kind "environment" (Some "[REDACTED]") in
  In e (recorded (calls cs) (mkStore [])) /\
  (kind e <> flag_kind ->
   In (value e) [Some TelemetryClient.redactedValue; Some "production"; Some "preview"]).
Proof.
  cbv zeta.
  assert (Hin : In (mkEvent option_kind "environment" (Some "[REDACTED]"))
                   (recorded (calls [ListTelemetryClient.OptionMeta (Some ["secret=1"]);
                                     ListTelemetryClient.OptionEnvironment (Some "my-staging");
                                     ListTelemetryClient.ArgumentApp (Some "my-app")])
                             (mkStore [])))
    by (cbn; right; left; reflexivity).
  split; [exact Hin|].
  exact (proj1 (proj2 (calls_record_fixed_events _ _ _ Hin))).
Defined.

(** ** Which inputs show in the store *)

Lemma record_injective (e e' : TelemetryEvent) (st : TelemetryEventStore) :
  TelemetryEventStore.record e st = TelemetryEventStore.record e' st -> e = e'.
Proof.
  unfold TelemetryEventStore.record. intros H. injection H as H.
  apply app_inv_head in H. congruence.
Qed.

(** X3: a non-empty environment name is recorded verbatim exactly when it is
    "production", "preview" or the placeholder itself; the comparison is
    exact, so any other spelling is replaced. *)
Theorem environment_verbatim_iff (environment : string) (st : TelemetryEventStore) :
  environment <> "" ->
  (store_after (ListTelemetryClient.trackCliOptionEnvironment (Some environment)) st
   = TelemetryEventStore.record (mkEvent option_kind "environment" (Some environment)) st
   <-> In environment ["production"; "preview"; TelemetryClient.redactedValue]).
Proof.
  intros Hne. unfold store_after. rewrite trackCliOptionEnvironment_run.
  destruct environment as [|c s]; [congruence|]. cbn [snd].
  unfold includes; cbn [existsb].
  destruct (String.eqb_spec (String c s) "production") as [E|N1].
  { rewrite E. split; [cbn; auto|reflexivity]. }
  destruct (String.eqb_spec (String c s) "preview") as [E|N2].
  { rewrite E. split; [cbn; auto|reflexivity]. }
  cbn [orb]. split.
  - intros H. apply record_injective in H.
    apply (f_equal (fun e => match value e with Some v => v | None => "" end)) in H.
    cbn [value] in H. cbn. right. right. left. exact H.
  - intros [E|[E|[E|[]]]]; congruence.
Qed.

Lemma environment_verbatim_iff_witness :
  "Production" <> "" /\
  store_after (ListTelemetryClient.trackCliOptionEnvironment (Some "Production"))
              (mkStore [])
  <> TelemetryEventStore.record (mkEvent option_kind "environment" (Some "Production"))
                                (mkStore []).
Proof.
  assert (Hne : "Production" <> "") by discriminate.
  split; [exact Hne|].
  intros H. apply (proj1 (environment_verbatim_iff "Production" (mkStore []) Hne)) in H.
  cbn in H. destruct H as [E|[E|[E|[]]]]; discriminate E.
Defined.

(** X4: [trackCliOptionNext] records nothing exactly for the numbers 0, -0
    and NaN; every other number, negative and infinite ones included,
    records one option event with key "next" and the placeholder. *)
Theorem next_records_iff_nonzero (next : number) (st : TelemetryEventStore) :
  (recorded (ListTelemetryClient.trackCliOptionNext (Some next)) st = []
   <-> next = S754_nan \/ exists sign, next = S754_zero sign) /\
  (recorded (ListTelemetryClient.trackCliOptionNext (Some next)) st
   = [mkEvent option_kind "next" (Some TelemetryClient.redactedValue)]
   <-> next <> S754_nan /\ forall sign, next <> S754_zero sign).
Proof.
  unfold recorded, store_after. rewrite trackCliOptionNext_run.
  destruct next as [sg|sg| |sg m e]; cbn [truthy Truthy_optional Truthy_number snd];
    rewrite ?record_events, ?skipn_app, ?skipn_all, ?Nat.sub_diag; cbn [skipn app].
  - split; split; intros H; try discriminate H; eauto.
    destruct H as [_ H]. exfalso. exact (H sg eq_refl).
  - split; split; intros H; try discriminate H; try reflexivity.
    + destruct H as [H|[s H]]; discriminate H.
    + split; [discriminate|intros; discriminate].
  - split; split; intros H; try discriminate H; eauto.
    destruct H as [H _]. exfalso. exact (H eq_refl).
  - split; split; intros H; try discriminate H; try reflexivity.
    + destruct H as [H|[s H]]; discriminate H.
    + split; [discriminate|intros; discriminate].
Qed.

(** X5: the store does not tell two present inputs of a sensitive method
    apart: any two non-empty arrays given to [trackCliOptionMeta] (or to
    [trackCliOptionPolicy]), any two non-empty application names, and any two
    truthy numbers leave the same store behind. *)
Theorem sensitive_inputs_indistinguishable (st : TelemetryEventStore) :
  (forall meta meta', meta <> [] -> meta' <> [] ->
     ListTelemetryClient.trackCliOptionMeta (Some meta) st
     = ListTelemetryClient.trackCliOptionMeta (Some meta') st) /\
  (forall policy policy', policy <> [] -> policy' <> [] ->
     ListTelemetryClient.trackCliOptionPolicy (Some policy) st
     = ListTelemetryClient.trackCliOptionPolicy (Some policy') st) /\
  (forall app app', app <> "" -> app' <> "" ->
     ListTelemetryClient.trackCliArgumentApp (Some app) st
     = ListTelemetryClient.trackCliArgumentApp (Some app') st) /\
  (forall next next' : number, truthy next = true -> truthy next' = true ->
     ListTelemetryClient.trackCliOptionNext (Some next) st
     = ListTelemetryClient.trackCliOptionNext (Some next') st).
Proof.
  repeat split.
  - intros [|? ?] [|? ?] H H'; try congruence. rewrite !trackCliOptionMeta_run. reflexivity.
  - intros [|? ?] [|? ?] H H'; try congruence. rewrite !trackCliOptionPolicy_run. reflexivity.
  - intros [|? ?] [|? ?] H H'; try congruence. rewrite !trackCliArgumentApp_run. reflexivity.
  - intros n n' H H'. rewrite !trackCliOptionNext_run.
    cbn [truthy Truthy_optional]. rewrite H, H'. reflexivity.
Qed.

Lemma sensitive_inputs_indistinguishable_witness :
  ["team=a"] <> [] /\ ["owner=b"; "tier=c"] <> [] /\
  ListTelemetryClient.trackCliOptionMeta (Some ["team=a"]) (mkStore [])
  = ListTelemetryClient.trackCliOptionMeta (Some ["owner=b"; "tier=c"]) (mkStore []) /\
  "shop" <> "" /\ "blog" <> "" /\
  ListTelemetryClient.trackCliArgumentApp (Some "shop") (mkStore [])
  = ListTelemetryClient.trackCliArgumentApp (Some "blog") (mkStore []).
Proof.
  assert (H1 : ["team=a"] <> []) by discriminate.
  assert (H2 : ["owner=b"; "tier=c"] <> []) by discriminate.
  assert (H3 : "shop" <> "") by discriminate.
  assert (H4 : "blog" <> "") by discriminate.
  pose proof (sensitive_inputs_indistinguishable (mkStore [])) as [Hm [_ [Ha _]]].
  split; [exact H1|]. split; [exact H2|]. split; [exact (Hm _ _ H1 H2)|].
  split; [exact H3|]. split; [exact H4|]. exact (Ha _ _ H3 H4).
Defined.

(** ** The mock streams *)

Lemma append_assoc (a b c : string) : ((a ++ b) ++ c = a ++ (b ++ c))%string.
Proof. induction a as [|x a IH]; cbn; [reflexivity|]. rewrite IH. reflexivity. Qed.

Lemma append_empty_r (a : string) : (a ++ "" = a)%string.
Proof. induction a as [|x a IH]; cbn; [reflexivity|]. rewrite IH. reflexivity. Qed.

Lemma append_concat (a : string) (l : list string) :
  (a ++ String.concat "" l = String.concat "" (a :: l))%string.
Proof.
  destruct l as [|b l]; cbn [String.concat]; [apply append_empty_r|reflexivity].
Qed.

Lemma nth_error_last (l : list string) :
  nth_error l (List.length l - 1) = Some (last l "") \/ l = [].
Proof.
  destruct l as [|a l] using rev_ind; [right; reflexivity|left].
  rewrite length_app, last_last. cbn [List.length].
  rewrite nth_error_app2 by lia.
  replace (List.length l + 1 - 1 - List.length l)%nat with 0%nat by lia. reflexivity.
Qed.

Section StreamFacts.

Variable ignoredAnsi : list string.
Variable stripAnsi : string -> string.
Variable trim : string -> string.

Lemma handed_to_write_buffers (strs : list string) (s : MockClient.MockStream) :
  MockClient.rawChunks (handed_to_write ignoredAnsi stripAnsi trim strs s)
  = MockClient.rawChunks s
    ++ filter (fun str => negb (existsb (String.eqb str) ignoredAnsi)) strs /\
  MockClient.chunks (handed_to_write ignoredAnsi stripAnsi trim strs s)
  = MockClient.chunks s
    ++ filter (fun str => (0 <? String.length (trim (stripAnsi str)))%nat) strs.
Proof.
  unfold handed_to_write. revert s. induction strs as [|str strs IH]; intros s.
  - cbn. rewrite !app_nil_r. split; reflexivity.
  - cbn [fold_left filter].
    destruct (IH (MockClient._write ignoredAnsi stripAnsi trim str s)) as [Hraw Hchunks].
    rewrite Hraw, Hchunks.
    unfold MockClient._write; cbn [MockClient.rawChunks MockClient.chunks].
    destruct (negb (existsb (String.eqb str) ignoredAnsi));
      destruct (0 <? String.length (trim (stripAnsi str)))%nat;
      rewrite <- ?app_assoc; split; reflexivity.
Qed.

(** X6: the chunks handed to [_write] of a mock stream are all appended, in
    order, to its full output; its raw chunks gain exactly the handed chunks
    that are not ignored escapes, and its chunks exactly those that are not
    blank once stripped and trimmed, both in order; the earlier contents and
    the stream's settings stay. (A chunk of a [write()] call that the paused
    stream is still queueing has not been handed to [_write].) *)
Theorem handed_chunks_accumulate (strs : list string) (s : MockClient.MockStream) :
  let s' := handed_to_write ignoredAnsi stripAnsi trim strs s in
  MockClient.getFullOutput s'
  = (MockClient.fullOutput s ++ String.concat "" strs)%string /\
  MockClient.rawChunks s'
  = MockClient.rawChunks s
    ++ filter (fun str => negb (existsb (String.eqb str) ignoredAnsi)) strs /\
  MockClient.chunks s'
  = MockClient.chunks s
    ++ filter (fun str => (0 <? String.length (trim (stripAnsi str)))%nat) strs /\
  MockClient.isTTY s' = MockClient.isTTY s /\
  MockClient.encoding s' = MockClient.encoding s /\
  MockClient.paused s' = MockClient.paused s.
Proof.
  cbv zeta. unfold handed_to_write, MockClient.getFullOutput.
  revert s. induction strs as [|str strs IH]; intros s.
  - cbn. rewrite append_empty_r, !app_nil_r. repeat split.
  - cbn [fold_left filter].
    destruct (IH (MockClient._write ignoredAnsi stripAnsi trim str s))
      as [Hfull [Hraw [Hchunks [Htty [Henc Hpaused]]]]].
    rewrite Hfull, Hraw, Hchunks, Htty, Henc, Hpaused.
    unfold MockClient._write;
      cbn [MockClient.fullOutput MockClient.rawChunks MockClient.chunks
           MockClient.isTTY MockClient.encoding MockClient.paused].
    rewrite append_assoc, append_concat.
    destruct (negb (existsb (String.eqb str) ignoredAnsi));
      destruct (0 <? String.length (trim (stripAnsi str)))%nat;
      rewrite <- ?app_assoc; repeat split.
Qed.

(** X7: the last chunk of a stream is the last chunk handed to [_write]
    that passed the filter of the chosen buffer (raw: not an ignored escape;
    otherwise: not blank once stripped and trimmed), the last chunk it had
    before when none passed, and the empty string when the buffer is
    empty. *)
Theorem getLastChunk_is_last_kept (raw : option bool) (strs : list string)
        (s : MockClient.MockStream) :
  MockClient.getLastChunk raw (handed_to_write ignoredAnsi stripAnsi trim strs s)
  = if truthy raw
    then last (MockClient.rawChunks s
               ++ filter (fun str => negb (existsb (String.eqb str) ignoredAnsi)) strs) ""
    else last (MockClient.chunks s
               ++ filter (fun str => (0 <? String.length (trim (stripAnsi str)))%nat) strs)
              "".
Proof.
  destruct (handed_to_write_buffers strs s) as [Hraw Hchunks].
  unfold MockClient.getLastChunk. rewrite Hraw, Hchunks.
  destruct (truthy raw).
  - destruct (nth_error_last
                (MockClient.rawChunks s
                 ++ filter (fun str => negb (existsb (String.eqb str) ignoredAnsi)) strs))
      as [H|H]; rewrite H; reflexivity.
  - destruct (nth_error_last
                (MockClient.chunks s
                 ++ filter (fun str => (0 <? String.length (trim (stripAnsi str)))%nat)
                           strs))
      as [H|H]; rewrite H; reflexivity.
Qed.

End StreamFacts.

(** ** Preparing and resetting the mock client *)

(** X8: [reset()] forgets the client it is called on: the streams, output
    options, argv, configuration, scenario, agent, working directory and
    recorded events it leaves are the same whatever the client held before,
    so calling it twice changes nothing more, and the fresh [stderr] shows
    no output and no last chunk. *)
Theorem reset_forgets (originalCwd : string) (this other : MockClient.MockClient)
        (raw : option bool) :
  MockClient.reset originalCwd this = MockClient.reset originalCwd other /\
  MockClient.reset originalCwd (MockClient.reset originalCwd this)
  = MockClient.reset originalCwd this /\
  MockClient.getFullOutput (MockClient.stderr (MockClient.reset originalCwd this)) = "" /\
  MockClient.getLastChunk raw (MockClient.stderr (MockClient.reset originalCwd this)) = "".
Proof.
  repeat split. destruct (truthy raw) eqn:E; unfold MockClient.getLastChunk; rewrite E;
    reflexivity.
Qed.

(** X9: [setArgv(...argv)] stores the arguments behind the executable path
    and the script name, so the [client.argv.slice(2)] the handlers parse is
    the list given to [setArgv]; debug output is on exactly when the list
    contains "--debug" or "-d", colors are off exactly when it contains
    "--no-color", and the event store and the streams are left alone. *)
Theorem setArgv_round_trip (execPath : string) (argv : list string)
        (this : MockClient.MockClient) :
  let this' := MockClient.setArgv execPath argv this in
  slice 2 (MockClient.argv this') = argv /\
  (MockClient.debug (MockClient.output this') = Some true
   <-> In "--debug" argv \/ In "-d" argv) /\
  (MockClient.noColor (MockClient.output this') = Some true <-> In "--no-color" argv) /\
  MockClient.telemetryEventStore this' = MockClient.telemetryEventStore this /\
  MockClient.stderr this' = MockClient.stderr this.
Proof.
  cbv zeta. split; [reflexivity|].
  assert (Hin : forall s, existsb (String.eqb s) argv = true <-> In s argv).
  { intros s. rewrite existsb_exists. split.
    - intros [x [Hx E]]. apply String.eqb_eq in E. subst x. exact Hx.
    - intros Hs. exists s. split; [exact Hs|apply String.eqb_refl]. }
  cbn [MockClient.setArgv MockClient.output MockClient.debug MockClient.noColor
       MockClient.telemetryEventStore MockClient.stderr].
  repeat split.
  - intros H. injection H as H. apply orb_true_iff in H.
    destruct H as [H|H]; [left|right]; apply Hin; exact H.
  - intros H. f_equal. apply orb_true_iff.
    destruct H as [H|H]; [left|right]; apply Hin; exact H.
  - intros H. injection H as H. apply Hin. exact H.
  - intros H. f_equal. apply Hin. exact H.
Qed.

(** ** Exit codes of the handlers *)


Section HandlerFacts.

Variable pull_parseArguments : list string -> Completion (ParsedArgs Pull.Flags).
Variable parseTarget : Pull.Flags -> option string.
Variable ensureLink : string -> bool -> Telemetry (Z + Pull.ProjectLinked).
Variable envPullCommandLogic
  : string -> bool -> string -> Pull.ProjectLinked -> option string -> string -> string
    -> Telemetry unit.
Variable writeProjectSettings : string -> Pull.ProjectLinked -> bool -> Telemetry unit.
Variable join : string -> string -> string.
Variables pull_trackCliFlagYes pull_trackCliFlagProd : option bool -> Telemetry unit.
Variables trackCliOptionGitBranch pull_trackCliOptionEnvironment
  : option string -> Telemetry unit.

Variable init_parseArguments : list string -> Completion (ParsedArgs Init.Flags).
Variable getSubcommand : list string -> list string.
Variable init : Init.Flags -> list string -> Telemetry Z.
Variable trackCliArgumentDir : option string -> Telemetry unit.
Variable trackCliFlagForce : option bool -> Telemetry unit.

Variable target_parseArguments : list string -> Completion (ParsedArgs Target.Flags).
Variable list_ : list string -> Telemetry Z.
Variable trackCliSubcommandList : string -> Telemetry unit.

(** X10: when [parseArguments] throws, each of the handlers of [pull],
    [init] and [target] catches the error, returns exit code 1 and records
    no telemetry event. *)
Theorem parse_failure_returns_1 (argv : list string) (cwd : string)
        (st : TelemetryEventStore) :
  (forall error,
      pull_parseArguments (slice 2 argv) = Throw error ->
      Pull.main pull_parseArguments parseTarget ensureLink envPullCommandLogic
                writeProjectSettings join
                pull_trackCliFlagYes pull_trackCliFlagProd
                trackCliOptionGitBranch pull_trackCliOptionEnvironment
                argv cwd st = (Normal 1%Z, st)) /\
  (forall error,
      init_parseArguments (slice 2 argv) = Throw error ->
      Init.main init_parseArguments getSubcommand init
                trackCliArgumentDir trackCliFlagForce argv st = (Normal 1%Z, st)) /\
  (forall error,
      target_parseArguments (slice 2 argv) = Throw error ->
      Target.main target_parseArguments list_ trackCliSubcommandList argv st
      = (Normal 1%Z, st)).
Proof.
  repeat split; intros error Hparse.
  - unfold Pull.main. rewrite Hparse. reflexivity.
  - unfold Init.main. rewrite Hparse. reflexivity.
  - unfold Target.main. rewrite Hparse. reflexivity.
Qed.

(** X11: given more than three positional arguments (and no [--help]), the
    [init] handler returns exit code 1 before any tracking call: no event
    is recorded and [init] is not run. *)
Theorem init_too_many_arguments (argv : list string) (st : TelemetryEventStore)
        (parsedArgs : ParsedArgs Init.Flags) :
  init_parseArguments (slice 2 argv) = Normal parsedArgs ->
  truthy (Init.help (flags parsedArgs)) = false ->
  (3 < List.length (args parsedArgs))%nat ->
  Init.main init_parseArguments getSubcommand init
            trackCliArgumentDir trackCliFlagForce argv st = (Normal 1%Z, st).
Proof.
  intros Hparse Hhelp Hlen. unfold Init.main. rewrite Hparse, Hhelp.
  apply Nat.ltb_lt in Hlen. rewrite Hlen. reflexivity.
Qed.

(** X12: past the argument checks the [init] handler tracks the directory
    argument and the force flag, in this order, and then runs [init] inside
    [try]: an exception of [init] is caught and becomes exit code 1, with
    the events recorded up to the throw kept; an exception of a tracking
    call is outside the [try] and escapes the handler. *)
Theorem init_catches_init_only (argv : list string) (st : TelemetryEventStore)
        (parsedArgs : ParsedArgs Init.Flags) :
  init_parseArguments (slice 2 argv) = Normal parsedArgs ->
  truthy (Init.help (flags parsedArgs)) = false ->
  (List.length (args parsedArgs) <= 3)%nat ->
  let main := Init.main init_parseArguments getSubcommand init
                        trackCliArgumentDir trackCliFlagForce argv in
  let tracked := trackCliArgumentDir (nth_error (args parsedArgs) 2) ;;
                 trackCliFlagForce (Init.force (flags parsedArgs)) in
  let init_args := getSubcommand (slice 1 (args parsedArgs)) in
  (forall st1 error st2,
      tracked st = (Normal tt, st1) ->
      init (flags parsedArgs) init_args st1 = (Throw error, st2) ->
      main st = (Normal 1%Z, st2)) /\
  (forall st1 code st2,
      tracked st = (Normal tt, st1) ->
      init (flags parsedArgs) init_args st1 = (Normal code, st2) ->
      main st = (Normal code, st2)) /\
  (forall error st1,
      tracked st = (Throw error, st1) ->
      main st = (Throw error, st1)).
Proof.
  intros Hparse Hhelp Hlen main tracked init_args.
  assert (Hmain : main st =
                  match tracked st with
                  | (Normal _, st1) =>
                      try_catch (init (flags parsedArgs) init_args)
                                (fun err => ret 1%Z) st1
                  | (Throw error, st1) => (Throw error, st1)
                  end).
  { unfold main, Init.main. rewrite Hparse, Hhelp.
    assert (Hle : (3 <? List.length (args parsedArgs))%nat = false)
      by (apply Nat.ltb_ge; exact Hlen).
    cbv zeta. rewrite Hle. unfold tracked, bind.
    destruct (trackCliArgumentDir (nth_error (args parsedArgs) 2) st) as [[[]|e] s1];
      [|reflexivity].
    destruct (trackCliFlagForce (Init.force (flags parsedArgs)) s1) as [[[]|e] s2];
      reflexivity. }
  rewrite Hmain. unfold try_catch.
  repeat split.
  - intros st1 error st2 Ht Hi. rewrite Ht, Hi. reflexivity.
  - intros st1 code st2 Ht Hi. rewrite Ht, Hi. reflexivity.
  - intros error st1 Ht. rewrite Ht. reflexivity.
Qed.

(** X13: the [target] handler takes the second positional argument as the
    subcommand (the first is the command's own name): "ls" and "list" are
    tracked as typed and handed, with the arguments after them, to [list],
    whose outcome is the handler's; any other subcommand, or none, returns
    exit code 2 and records nothing. *)
Theorem target_dispatch (argv : list string) (st : TelemetryEventStore)
        (parsedArgs : ParsedArgs Target.Flags) :
  target_parseArguments (slice 2 argv) = Normal parsedArgs ->
  truthy (Target.help (flags parsedArgs)) = false ->
  let main := Target.main target_parseArguments list_ trackCliSubcommandList argv in
  (forall subcommand,
      nth_error (args parsedArgs) 1 = Some subcommand ->
      In subcommand ["ls"; "list"] ->
      main st = (trackCliSubcommandList subcommand ;;
                 list_ (slice 2 (args parsedArgs))) st) /\
  ((forall subcommand,
       nth_error (args parsedArgs) 1 = Some subcommand ->
       ~ In subcommand ["ls"; "list"]) ->
   main st = (Normal 2%Z, st)).
Proof.
  intros Hparse Hhelp main. unfold main, Target.main. rewrite Hparse, Hhelp. cbv zeta.
  assert (Hsub : nth_error (slice 1 (args parsedArgs)) 0 = nth_error (args parsedArgs) 1)
    by (destruct (args parsedArgs) as [|a [|b l]]; reflexivity).
  assert (Hrest : slice 1 (slice 1 (args parsedArgs)) = slice 2 (args parsedArgs))
    by (destruct (args parsedArgs) as [|a [|b l]]; reflexivity).
  rewrite Hsub, Hrest. split.
  - intros subcommand Hnth [E|[E|[]]]; rewrite Hnth, <- E; reflexivity.
  - intros Hother. destruct (nth_error (args parsedArgs) 1) as [subcommand|]; [|reflexivity].
    specialize (Hother subcommand eq_refl).
    destruct (String.eqb_spec subcommand "ls") as [E|_];
      [exfalso; apply Hother; cbn; auto|].
    destruct (String.eqb_spec subcommand "list") as [E|_];
      [exfalso; apply Hother; cbn; auto|].
    reflexivity.
Qed.


End HandlerFacts.

Lemma parse_failure_returns_1_witness :
  let unknown := Error "unknown or unexpected option: --bogus" in
  let argv := ["node"; "cli.js"; "target"; "--bogus"] in
  Pull.main (fun _ => Throw unknown) (fun _ => None) (fun _ _ => ret (inl 0%Z))
            (fun _ _ _ _ _ _ _ => ret tt) (fun _ _ _ => ret tt) append
            ListTelemetryClient.trackCliFlagYes ListTelemetryClient.trackCliFlagProd
            (fun _ => ret tt) ListTelemetryClient.trackCliOptionEnvironment
            argv "/" (mkStore []) = (Normal 1%Z, mkStore []) /\
  Init.main (fun _ => Throw unknown) (fun a => a) (fun _ _ => ret 0%Z)
            (fun _ => ret tt) (fun _ => ret tt) argv (mkStore [])
  = (Normal 1%Z, mkStore []) /\
  Target.main (fun _ => Throw unknown) (fun _ => ret 0%Z) (fun _ => ret tt)
              argv (mkStore []) = (Normal 1%Z, mkStore []).
Proof.
  cbv zeta.
  pose proof (parse_failure_returns_1
                (fun _ => Throw (Error "unknown or unexpected option: --bogus"))
                (fun _ => None) (fun _ _ => ret (inl 0%Z))
                (fun _ _ _ _ _ _ _ => ret tt) (fun _ _ _ => ret tt) append
                ListTelemetryClient.trackCliFlagYes ListTelemetryClient.trackCliFlagProd
                (fun _ => ret tt) ListTelemetryClient.trackCliOptionEnvironment
                (fun _ => Throw (Error "unknown or unexpected option: --bogus"))
                (fun a => a) (fun _ _ => ret 0%Z) (fun _ => ret tt) (fun _ => ret tt)
                (fun _ => Throw (Error "unknown or unexpected option: --bogus"))
                (fun _ => ret 0%Z) (fun _ => ret tt)
                ["node"; "cli.js"; "target"; "--bogus"] "/" (mkStore []))
    as [Hpull [Hinit Htarget]].
  split; [|split].
  - exact (Hpull _ eq_refl).
  - exact (Hinit _ eq_refl).
  - exact (Htarget _ eq_refl).
Defined.

Lemma init_too_many_arguments_witness :
  let parsedArgs := mkParsedArgs ["init"; "nextjs"; "dir"; "extra"]
                                 (Init.mkFlags None None) in
  truthy (Init.help (flags parsedArgs)) = false /\
  (3 < List.length (args parsedArgs))%nat /\
  Init.main (fun _ => Normal parsedArgs) (fun a => a)
            (fun _ _ => TelemetryClient.trackCliArgument "example" "nextjs" ;; ret 0%Z)
            (fun _ => TelemetryClient.trackCliArgument "dir" "[REDACTED]")
            (fun _ => TelemetryClient.trackCliFlag "force")
            ["node"; "cli.js"; "init"; "nextjs"; "dir"; "extra"] (mkStore [])
  = (Normal 1%Z, mkStore []).
Proof.
  cbv zeta.
  assert (Hhelp : truthy (Init.help (flags (mkParsedArgs ["init"; "nextjs"; "dir"; "extra"]
                                                         (Init.mkFlags None None)))) = false)
    by reflexivity.
  assert (Hlen : (3 < List.length (args (mkParsedArgs ["init"; "nextjs"; "dir"; "extra"]
                                                      (Init.mkFlags None None))))%nat)
    by (cbn; lia).
  split; [exact Hhelp|]. split; [exact Hlen|].
  exact (init_too_many_arguments
           (fun _ => Normal (mkParsedArgs ["init"; "nextjs"; "dir"; "extra"]
                                          (Init.mkFlags None None)))
           (fun a => a)
           (fun _ _ => TelemetryClient.trackCliArgument "example" "nextjs" ;; ret 0%Z)
           (fun _ => TelemetryClient.trackCliArgument "dir" "[REDACTED]")
           (fun _ => TelemetryClient.trackCliFlag "force")
           ["node"; "cli.js"; "init"; "nextjs"; "dir"; "extra"] (mkStore [])
           _ eq_refl Hhelp Hlen).
Defined.

Lemma init_catches_init_only_witness :
  let parsedArgs := mkParsedArgs ["init"; "nextjs"; "dir"] (Init.mkFlags None (Some true)) in
  let failing : Telemetry Z :=
    TelemetryClient.trackCliArgument "example" "nextjs" ;; throw (Error "fetch failed") in
  truthy (Init.help (flags parsedArgs)) = false /\
  (List.length (args parsedArgs) <= 3)%nat /\
  Init.main (fun _ => Normal parsedArgs) (fun a => a) (fun _ _ => failing)
            (fun _ => TelemetryClient.trackCliArgument "dir" "[REDACTED]")
            (fun _ => TelemetryClient.trackCliFlag "force")
            ["node"; "cli.js"; "init"; "nextjs"; "dir"] (mkStore [])
  = (Normal 1%Z,
     mkStore [mkEvent argument_kind "dir" (Some "[REDACTED]");
              mkEvent flag_kind "force" None;
              mkEvent argument_kind "example" (Some "nextjs")]).
Proof.
  cbv zeta.
  assert (Hhelp : truthy (Init.help (flags (mkParsedArgs ["init"; "nextjs"; "dir"]
                                              (Init.mkFlags None (Some true))))) = false)
    by reflexivity.
  assert (Hlen : (List.length (args (mkParsedArgs ["init"; "nextjs"; "dir"]
                                       (Init.mkFlags None (Some true)))) <= 3)%nat)
    by (cbn; lia).
  split; [exact Hhelp|]. split; [exact Hlen|].
  exact (proj1 (init_catches_init_only
                  (fun _ => Normal (mkParsedArgs ["init"; "nextjs"; "dir"]
                                                 (Init.mkFlags None (Some true))))
                  (fun a => a)
                  (fun _ _ => TelemetryClient.trackCliArgument "example" "nextjs" ;;
                              throw (Error "fetch failed"))
                  (fun _ => TelemetryClient.trackCliArgument "dir" "[REDACTED]")
                  (fun _ => TelemetryClient.trackCliFlag "force")
                  ["node"; "cli.js"; "init"; "nextjs"; "dir"] (mkStore [])
                  _ eq_refl Hhelp Hlen)
               _ (Error "fetch failed") _ eq_refl eq_refl).
Defined.

Lemma target_dispatch_witness :
  let parsedArgs := mkParsedArgs ["target"; "remove"; "staging"] (Target.mkFlags None) in
  truthy (Target.help (flags parsedArgs)) = false /\
  (forall subcommand,
      nth_error (args parsedArgs) 1 = Some subcommand -> ~ In subcommand ["ls"; "list"]) /\
  Target.main (fun _ => Normal parsedArgs)
              (fun _ => ret 0%Z)
              (fun s => TelemetryClient.trackCliSubcommand "list" s)
              ["node"; "cli.js"; "target"; "remove"; "staging"] (mkStore [])
  = (Normal 2%Z, mkStore []).
Proof.
  cbv zeta.
  assert (Hhelp : truthy (Target.help (flags (mkParsedArgs ["target"; "remove"; "staging"]
                                                (Target.mkFlags None)))) = false)
    by reflexivity.
  assert (Hother : forall subcommand,
             nth_error (args (mkParsedArgs ["target"; "remove"; "staging"]
                                           (Target.mkFlags None))) 1 = Some subcommand ->
             ~ In subcommand ["ls"; "list"]).
  { cbn. intros subcommand H. injection H as <-. intros [E|[E|[]]]; discriminate E. }
  split; [exact Hhelp|]. split; [exact Hother|].
  exact (proj2 (target_dispatch
                  (fun _ => Normal (mkParsedArgs ["target"; "remove"; "staging"]
                                                 (Target.mkFlags None)))
                  (fun _ => ret 0%Z)
                  (fun s => TelemetryClient.trackCliSubcommand "list" s)
                  ["node"; "cli.js"; "target"; "remove"; "staging"] (mkStore [])
                  _ eq_refl Hhelp)
               Hother).
Defined.


(** ** The DNS handlers *)

(** X15: [dns import] awaits [getScope] first: when it rejects, the handler
    rejects whatever its arguments. Once it has resolved, a number of
    arguments other than two returns exit code 1 with nothing tracked; given
    two, the handler tracks the domain and the zone file path, in this order,
    before it imports, and the exit code is 0 when the import resolves to
    record ids, 1 when it resolves to either error, while a rejection of the
    import escapes the handler. *)
Theorem dns_import_exit_code
        (getScope : Telemetry string)
        (importZonefile : string -> string -> string -> Telemetry DnsImport.ImportResult)
        (trackCliArgumentDomain trackCliArgumentZoneFilePath : string -> Telemetry unit)
        (args : list string) (st : TelemetryEventStore) :
  let add := DnsImport.add getScope importZonefile
                           trackCliArgumentDomain trackCliArgumentZoneFilePath in
  (forall error st1, getScope st = (Throw error, st1) -> add args st = (Throw error, st1)) /\
  (forall contextName st1,
      getScope st = (Normal contextName, st1) ->
      (List.length args <> 2%nat -> add args st = (Normal 1%Z, st1)) /\
      (forall domain zonefilePath st2 outcome st3,
          args = [domain; zonefilePath] ->
          (trackCliArgumentDomain domain ;; trackCliArgumentZoneFilePath zonefilePath) st1
          = (Normal tt, st2) ->
          importZonefile contextName domain zonefilePath st2 = (outcome, st3) ->
          add args st =
          (match outcome with
           | Normal (DnsImport.RecordIds _) => Normal 0%Z
           | Normal _ => Normal 1%Z
           | Throw error => Throw error
           end, st3))).
Proof.
  intros add. split.
  - intros error st1 Hscope. unfold add, DnsImport.add, bind. rewrite Hscope. reflexivity.
  - intros contextName st1 Hscope. split.
    + intros Hlen. unfold add, DnsImport.add, bind. rewrite Hscope.
      destruct args as [|a [|b [|c l]]]; try reflexivity.
      cbn in Hlen. congruence.
    + intros domain zonefilePath st2 outcome st3 -> Htracked Himport.
      unfold add, DnsImport.add. unfold bind at 1. rewrite Hscope.
      revert Htracked. unfold bind.
      destruct (trackCliArgumentDomain domain st1) as [[[]|e] s1]; [|discriminate].
      destruct (trackCliArgumentZoneFilePath zonefilePath s1) as [[[]|e] s2];
        [|discriminate].
      intros H. injection H as ->. rewrite Himport.
      destruct outcome as [[| |ids]|error]; reflexivity.
Qed.

Lemma dns_import_exit_code_witness :
  let add := DnsImport.add (ret "my-team") (fun _ _ _ => ret DnsImport.InvalidDomain)
                           (fun _ => TelemetryClient.trackCliArgument "domain" "[REDACTED]")
                           (fun _ => TelemetryClient.trackCliArgument "zoneFilePath"
                                                                       "[REDACTED]") in
  List.length ["example.com"] <> 2%nat /\
  add ["example.com"] (mkStore []) = (Normal 1%Z, mkStore []) /\
  add ["example.com"; "./zone"] (mkStore [])
  = (Normal 1%Z,
     mkStore [mkEvent argument_kind "domain" (Some "[REDACTED]");
              mkEvent argument_kind "zoneFilePath" (Some "[REDACTED]")]).
Proof.
  cbv zeta.
  assert (Hlen : List.length ["example.com"] <> 2%nat) by (cbn; lia).
  split; [exact Hlen|]. split.
  - exact (proj1 (proj2 (dns_import_exit_code
                    (ret "my-team") (fun _ _ _ => ret DnsImport.InvalidDomain)
                    (fun _ => TelemetryClient.trackCliArgument "domain" "[REDACTED]")
                    (fun _ => TelemetryClient.trackCliArgument "zoneFilePath" "[REDACTED]")
                    ["example.com"] (mkStore [])) "my-team" (mkStore []) eq_refl) Hlen).
  - exact (proj2 (proj2 (dns_import_exit_code
                    (ret "my-team") (fun _ _ _ => ret DnsImport.InvalidDomain)
                    (fun _ => TelemetryClient.trackCliArgument "domain" "[REDACTED]")
                    (fun _ => TelemetryClient.trackCliArgument "zoneFilePath" "[REDACTED]")
                    ["example.com"; "./zone"] (mkStore [])) "my-team" (mkStore []) eq_refl)
                 "example.com" "./zone"
                 (mkStore [mkEvent argument_kind "domain" (Some "[REDACTED]");
                           mkEvent argument_kind "zoneFilePath" (Some "[REDACTED]")])
                 (Normal DnsImport.InvalidDomain)
                 (mkStore [mkEvent argument_kind "domain" (Some "[REDACTED]");
                           mkEvent argument_kind "zoneFilePath" (Some "[REDACTED]")])
                 eq_refl eq_refl eq_refl).
Defined.

(** X16: once [getScope] has resolved and the record is found, [dns rm]
    deletes exactly when the answer read from [stdin], trimmed and
    lower-cased, is "y". On any other answer it returns 0 without calling
    [deleteDNSRecordById]: the outcome is the same whatever that function
    would do. On "y" it calls [deleteDNSRecordById] with the record's domain
    and id and returns 0 when the deletion resolves, while a rejection of the
    deletion escapes the handler. *)
Theorem dns_rm_deletes_only_on_yes
        (getScope : Telemetry string)
        (getDNSRecordById : string -> Telemetry (option DnsRm.DNSRecord))
        (deleteDNSRecordById deleteDNSRecordById' : string -> string -> Telemetry unit)
        (stdin_data : Telemetry string) (trim toLowerCase : string -> string)
        (recordId scope d : string) (record : DnsRm.DNSRecord)
        (st st1 st2 st3 : TelemetryEventStore) :
  getScope st = (Normal scope, st1) ->
  getDNSRecordById recordId
    (store_after (DnsRmTelemetryClient.trackCliArgumentRecordId (Some recordId)) st1)
  = (Normal (Some record), st2) ->
  stdin_data st2 = (Normal d, st3) ->
  let rm := DnsRm.rm getScope getDNSRecordById deleteDNSRecordById
                     stdin_data trim toLowerCase in
  let rm' := DnsRm.rm getScope getDNSRecordById deleteDNSRecordById'
                      stdin_data trim toLowerCase in
  (toLowerCase (trim d) <> "y" ->
   rm [recordId] st = (Normal 0%Z, st3) /\ rm' [recordId] st = (Normal 0%Z, st3)) /\
  (toLowerCase (trim d) = "y" ->
   forall outcome st4,
     deleteDNSRecordById (DnsRm.domain record) (DnsRm.id record) st3 = (outcome, st4) ->
     rm [recordId] st =
     (match outcome with
      | Normal _ => Normal 0%Z
      | Throw error => Throw error
      end, st4)).
Proof.
  intros Hscope Hfound Hdata rm rm'.
  assert (Hrun : forall delete,
             DnsRm.rm getScope getDNSRecordById delete stdin_data trim toLowerCase
                      [recordId] st
             = (if negb (toLowerCase (trim d) =? "y") then ret 0%Z
                else delete (DnsRm.domain record) (DnsRm.id record) ;; ret 0%Z) st3).
  { intros delete. revert Hfound. unfold DnsRm.rm, store_after. unfold bind at 1 2.
    rewrite Hscope.
    destruct (DnsRmTelemetryClient.trackCliArgumentRecordId (Some recordId) st1)
      as [[[]|error] s1] eqn:Htrack.
    - cbn [snd]. intros Hfound. unfold bind at 1. rewrite Hfound.
      unfold DnsRm.readConfirmation. unfold bind at 1 2. rewrite Hdata. reflexivity.
    - exfalso. revert Htrack. unfold DnsRmTelemetryClient.trackCliArgumentRecordId.
      destruct (truthy (Some recordId)); discriminate. }
  split.
  - intros Hno. apply String.eqb_neq in Hno.
    unfold rm, rm'. rewrite !Hrun, Hno. split; reflexivity.
  - intros Hyes outcome st4 Hdelete. apply String.eqb_eq in Hyes.
    unfold rm. rewrite Hrun, Hyes. cbn [negb]. unfold bind. rewrite Hdelete.
    destruct outcome as [[]|error]; reflexivity.
Qed.

Lemma dns_rm_deletes_only_on_yes_witness :
  let getDNSRecordById (recordId : string) : Telemetry (option DnsRm.DNSRecord) :=
    ret (Some (DnsRm.mkDNSRecord recordId "example.com")) in
  let st1 := mkStore [mkEvent argument_kind "recordId" (Some "[REDACTED]")] in
  (ret "my-team" : Telemetry string) (mkStore []) = (Normal "my-team", mkStore []) /\
  (ret "n" : Telemetry string) st1 = (Normal "n", st1) /\
  "n" <> "y" /\
  DnsRm.rm (ret "my-team") getDNSRecordById
           (fun _ _ => throw (Error "delete failed")) (ret "n") (fun s => s) (fun s => s)
           ["rec_1"] (mkStore [])
  = (Normal 0%Z, st1).
Proof.
  cbv zeta.
  assert (Hscope : (ret "my-team" : Telemetry string) (mkStore [])
                   = (Normal "my-team", mkStore [])) by reflexivity.
  assert (Hdata : (ret "n" : Telemetry string)
                    (mkStore [mkEvent argument_kind "recordId" (Some "[REDACTED]")])
                  = (Normal "n",
                     mkStore [mkEvent argument_kind "recordId" (Some "[REDACTED]")]))
    by reflexivity.
  assert (Hno : "n" <> "y") by discriminate.
  split; [exact Hscope|]. split; [exact Hdata|]. split; [exact Hno|].
  exact (proj1 (proj1 (dns_rm_deletes_only_on_yes
                         (ret "my-team")
                         (fun recordId =>
                            ret (Some (DnsRm.mkDNSRecord recordId "example.com")))
                         (fun _ _ => throw (Error "delete failed")) (fun _ _ => ret tt)
                         (ret "n") (fun s => s) (fun s => s)
                         "rec_1" "my-team" "n" (DnsRm.mkDNSRecord "rec_1" "example.com")
                         (mkStore []) (mkStore [])
                         (mkStore [mkEvent argument_kind "recordId" (Some "[REDACTED]")])
                         (mkStore [mkEvent argument_kind "recordId" (Some "[REDACTED]")])
                         Hscope eq_refl Hdata) Hno)).
Defined.

(** ** Parsing the environment of [pull] *)

(** X17: [parseEnvironment] returns only environments that
    [isValidEnvTarget] accepts, and returns its argument unchanged; it
    throws exactly when the environment is not accepted; a missing argument
    stands for "development", while the empty string is checked as it
    is. *)
Theorem parseEnvironment_valid_or_throws
        (isValidEnvTarget : string -> bool) (getEnvTargetPlaceholder : string)
        (environment : option string) :
  let parse := Pull.parseEnvironment isValidEnvTarget getEnvTargetPlaceholder in
  let given := match environment with Some e => e | None => "development" end in
  (forall target, parse environment = Normal target ->
                  isValidEnvTarget target = true /\ target = given) /\
  ((exists error, parse environment = Throw error) <-> isValidEnvTarget given = false) /\
  parse None = parse (Some "development") /\
  (parse (Some "") = Normal "" <-> isValidEnvTarget "" = true).
Proof.
  cbv zeta. unfold Pull.parseEnvironment.
  repeat split.
  - destruct environment as [e|];
      [destruct (isValidEnvTarget e) eqn:E | destruct (isValidEnvTarget "development") eqn:E];
      cbn in H; congruence.
  - destruct environment as [e|];
      [destruct (isValidEnvTarget e) eqn:E | destruct (isValidEnvTarget "development") eqn:E];
      cbn in H; congruence.
  - intros [error H]. destruct environment as [e|];
      [destruct (isValidEnvTarget e) eqn:E | destruct (isValidEnvTarget "development") eqn:E];
      cbn in H; congruence.
  - intros H. destruct environment as [e|]; rewrite H; cbn; eauto.
  - destruct (isValidEnvTarget "") eqn:E; cbn; congruence.
  - intros ->. reflexivity.
Qed.

Lemma parseEnvironment_valid_or_throws_witness :
  let isValidEnvTarget s := existsb (String.eqb s) ["production"; "preview"; "development"] in
  Pull.parseEnvironment isValidEnvTarget "<production|preview|development>" None
  = Normal "development" /\
  isValidEnvTarget "development" = true.
Proof.
  cbv zeta.
  assert (H : Pull.parseEnvironment
                (fun s => existsb (String.eqb s) ["production"; "preview"; "development"])
                "<production|preview|development>" None = Normal "development")
    by reflexivity.
  split; [exact H|].
  exact (proj1 (proj1 (parseEnvironment_valid_or_throws
                         (fun s => existsb (String.eqb s)
                                           ["production"; "preview"; "development"])
                         "<production|preview|development>" None)
                      "development" H)).
Defined.
